(** * 3xui-shop: a shallow embedding of the bot's glue code

    The development follows the layout of the Python sources:

    - [Promocode]       src/app/db/models/promocode.py
    - [Yookassa]        src/app/bot/payment_gateways/yookassa.py
    - [Restart]         src/app/bot/routes/admin_tools/restart_handler.py
    - [MainMenu]        src/app/bot/routes/main_menu/handler.py
    - [PaymentHandler]  src/app/bot/routes/subscription/payment_handler.py
    - [Logger]          src/app/logger.py
    - [Keyboard]        src/app/bot/routes/utils/keyboard.py
    - [Download]        src/app/bot/keyboards/download.py

    Python code that mutates a session, a table, a file system or a log is
    written in a small state-and-exception monad; a raised exception keeps
    the state reached so far, as in Python. *)

From stdpp Require Import base strings gmap list pretty sorting.

Open Scope Z_scope.

(** ** Python exceptions and the state-and-exception monad *)

(** The subclasses of [Exception] that the modelled code and its
    collaborators can raise. *)
Inductive PyExc :=
| AttributeError (type_name attr : string)
| ValueError (msg : string)
| TypeError (msg : string)
| JSONDecodeError
| IntegrityError (text : string)
| PendingRollbackError
| MultipleResultsFound
| FileNotFoundError (path : string)
| TelegramBadRequest (msg : string)
| ServiceError (service : string).

Definition exc_str (e : PyExc) : string :=
  match e with
  | AttributeError t a => "'" +:+ t +:+ "' object has no attribute '" +:+ a +:+ "'"
  | ValueError m => m
  | TypeError m => m
  | JSONDecodeError => "Expecting value"
  | IntegrityError text => text
  | PendingRollbackError =>
      "This Session's transaction has been rolled back due to a previous exception during flush"
  | MultipleResultsFound => "Multiple rows were found when one or none was required"
  | FileNotFoundError p => "No such file or directory: '" +:+ p +:+ "'"
  | TelegramBadRequest m => "Telegram server says - Bad Request: " +:+ m
  | ServiceError s => s
  end.

Inductive Outcome (A : Type) :=
| Returned (a : A)
| Raised (e : PyExc).
Arguments Returned {A} a.
Arguments Raised {A} e.

Definition M (S A : Type) : Type := S -> Outcome A * S.

Definition ret {S A} (a : A) : M S A := fun s => (Returned a, s).
Definition raise {S A} (e : PyExc) : M S A := fun s => (Raised e, s).
Definition bind {S A B} (m : M S A) (k : A -> M S B) : M S B :=
  fun s => match m s with
           | (Returned a, s') => k a s'
           | (Raised e, s') => (Raised e, s')
           end.
(** [try: body except Exception as e: handler e] *)
Definition try_except {S A} (body : M S A) (handler : PyExc -> M S A) : M S A :=
  fun s => match body s with
           | (Returned a, s') => (Returned a, s')
           | (Raised e, s') => handler e s'
           end.
(** [try: body finally: fin]; the pending exception is re-raised after
    [fin] unless [fin] itself raises. *)
Definition try_finally {S A} (body : M S A) (fin : M S unit) : M S A :=
  fun s => match body s with
           | (r, s') =>
               match fin s' with
               | (Returned _, s'') => (r, s'')
               | (Raised e, s'') => (Raised e, s'')
               end
           end.
Definition get_state {S} : M S S := fun s => (Returned s, s).
Definition modify {S} (f : S -> S) : M S unit := fun s => (Returned tt, f s).
Definition lift_outcome {S A} (o : Outcome A) : M S A := fun s => (o, s).

(** [preserves R m]: running [m] relates the state before to the state
    after, whether [m] returns or raises. *)
Definition preserves {S A} (R : S -> S -> Prop) (m : M S A) : Prop :=
  forall s, R s (m s).2.

Declare Scope py_scope.
Delimit Scope py_scope with py.
Notation "'do' x <- m ; k" := (bind m (fun x => k))
  (at level 10, x name, m at level 100, k at level 200) : py_scope.
Notation "'run' m ; k" := (bind m (fun _ => k))
  (at level 10, m at level 100, k at level 200) : py_scope.
Open Scope py_scope.

(** ** The [logging] module, as far as the handlers use it *)

Inductive Level := DEBUG | INFO | WARNING | ERROR | CRITICAL.

Record LogRecord := { levelname : Level; message : string }.

Definition is_warning (r : LogRecord) : bool :=
  match levelname r with WARNING => true | _ => false end.

(** ** src/app/db/models/promocode.py *)
Module Promocode.

(** A row of the [promocodes] table. *)
Record Promocode := {
  id : Z;
  code : string;
  duration : Z;
  is_activated : bool;
  activated_by : option Z;
  created_at : Z
}.

(** SQLAlchemy's unit of work over one database transaction:
    - [autoflush]: the session's [autoflush] setting ([True] unless the
      session factory says otherwise);
    - [integrity_text]: the text the driver and SQLAlchemy give the
      [IntegrityError] of a rejected [INSERT];
    - [committed]: the rows of the table as of the last commit;
    - [table]: the rows as the session's transaction sees them, that is
      [committed] with what has been flushed since;
    - [pending_new], [pending_deleted]: the objects added to the session
      or marked for deletion and not yet flushed;
    - [inactive]: a flush has failed and the transaction is rolled back;
      the session refuses to work until [rollback] is called. *)
Record AsyncSession := {
  autoflush : bool;
  integrity_text : Promocode -> string;
  committed : list Promocode;
  table : list Promocode;
  pending_new : list Promocode;
  pending_deleted : list Promocode;
  inactive : bool
}.

(** The state the class methods run in: the session they are handed and
    the records of the module's logger. *)
Record State := { session : AsyncSession; log : list LogRecord }.

Definition with_session (f : AsyncSession -> AsyncSession) (st : State) : State :=
  {| session := f (session st); log := log st |}.

Definition logger_error (msg : string) : M State unit :=
  modify (fun st => {| session := session st;
                       log := log st ++ [ {| levelname := ERROR; message := msg |} ] |}).

(** [select(Promocode).where(Promocode.code == code)] *)
Definition select_where_code (c : string) (t : list Promocode) : list Promocode :=
  filter (fun p => code p = c) t.

Definition scalar_one_or_none (rows : list Promocode) : Outcome (option Promocode) :=
  match rows with
  | [] => Returned None
  | [p] => Returned (Some p)
  | _ => Raised MultipleResultsFound
  end.

(** [DELETE FROM promocodes WHERE id = ?] for each object marked deleted. *)
Definition flush_deletes (dels : list Promocode) (t : list Promocode) : list Promocode :=
  filter (fun p => id p ∉ id <$> dels) t.

Definition next_id (t : list Promocode) : Z :=
  1 + foldr Z.max 0 (id <$> t).

Definition with_id (i : Z) (p : Promocode) : Promocode :=
  {| id := i; code := code p; duration := duration p;
     is_activated := is_activated p; activated_by := activated_by p;
     created_at := created_at p |}.

(** [INSERT] of the pending objects, one by one; the [unique=True] column
    [code] rejects a duplicate with an [IntegrityError]. *)
Fixpoint flush_inserts (text : Promocode -> string) (news : list Promocode)
    (t : list Promocode) : Outcome (list Promocode) :=
  match news with
  | [] => Returned t
  | p :: rest =>
      if bool_decide (code p ∈ code <$> t)
      then Raised (IntegrityError (text p))
      else flush_inserts text rest (t ++ [with_id (next_id t) p])
  end.

(** [Session._is_clean]: nothing to flush. *)
Definition is_clean (s : AsyncSession) : bool :=
  match pending_new s, pending_deleted s with
  | [], [] => true
  | _, _ => false
  end.

(** The session after a flush that wrote [t']. *)
Definition flushed (t' : list Promocode) (s : AsyncSession) : AsyncSession :=
  {| autoflush := autoflush s; integrity_text := integrity_text s;
     committed := committed s; table := t';
     pending_new := []; pending_deleted := []; inactive := inactive s |}.

(** The session after a flush that failed: the database has rolled the
    transaction back, and the session waits for [rollback]. *)
Definition deactivated (s : AsyncSession) : AsyncSession :=
  {| autoflush := autoflush s; integrity_text := integrity_text s;
     committed := committed s; table := committed s;
     pending_new := pending_new s; pending_deleted := pending_deleted s;
     inactive := true |}.

(** [Session.flush]: nothing happens on a clean session; otherwise the
    unit of work sends the pending [INSERT]s and then the pending
    [DELETE]s to the database, inside the transaction. *)
Definition flush : M State unit :=
  fun st =>
    let s := session st in
    if is_clean s then (Returned tt, st)
    else match flush_inserts (integrity_text s) (pending_new s) (table s) with
         | Returned t' =>
             (Returned tt, with_session (flushed (flush_deletes (pending_deleted s) t')) st)
         | Raised e => (Raised e, with_session deactivated st)
         end.

(** [StatementError.add_detail]: the detail goes in front of the text. *)
Definition add_detail (detail : string) (e : PyExc) : PyExc :=
  match e with
  | IntegrityError text =>
      IntegrityError ("(" +:+ detail +:+ ")" +:+ String (Ascii.ascii_of_nat 10) text)
  | _ => e
  end.

(** [Session._autoflush]: with [autoflush] on, the pending work is
    flushed before a query is sent; what the flush raises is raised by
    the query, with a note. *)
Definition _autoflush : M State unit :=
  do st <- get_state;
  if autoflush (session st)
  then try_except flush (fun e =>
         raise (add_detail ("raised as a result of Query-invoked autoflush; "
                            +:+ "consider using a session.no_autoflush block "
                            +:+ "if this flush is occurring prematurely") e))
  else ret tt.

(** [await session.execute(select(Promocode).where(...))] followed by
    [scalar_one_or_none()]. *)
Definition execute_select (c : string) : M State (option Promocode) :=
  do st <- get_state;
  if inactive (session st) then raise PendingRollbackError
  else
    run _autoflush;
    do st <- get_state;
    lift_outcome (scalar_one_or_none (select_where_code c (table (session st)))).

(** The session after [COMMIT]: what the transaction has written is the
    committed table. *)
Definition commit_session (s : AsyncSession) : AsyncSession :=
  {| autoflush := autoflush s; integrity_text := integrity_text s;
     committed := table s; table := table s;
     pending_new := pending_new s; pending_deleted := pending_deleted s;
     inactive := inactive s |}.

(** [await session.commit()]: flush, then [COMMIT]. *)
Definition commit : M State unit :=
  do st <- get_state;
  if inactive (session st) then raise PendingRollbackError
  else
    run flush;
    modify (with_session commit_session).

(** The session after [rollback]: the transaction's writes are undone,
    pending objects are expunged, and the session works again. *)
Definition rollback_session (s : AsyncSession) : AsyncSession :=
  {| autoflush := autoflush s; integrity_text := integrity_text s;
     committed := committed s; table := committed s;
     pending_new := []; pending_deleted := []; inactive := false |}.

Definition rollback : M State unit := modify (with_session rollback_session).

(** [await session.delete(obj)] marks the object; no statement is sent
    before the next flush. *)
Definition session_delete (p : Promocode) : M State unit :=
  modify (with_session (fun s =>
    {| autoflush := autoflush s; integrity_text := integrity_text s;
       committed := committed s; table := table s;
       pending_new := pending_new s;
       pending_deleted := p :: pending_deleted s;
       inactive := inactive s |})).

(** [Promocode.get] *)
Definition get (c : string) : M State (option Promocode) :=
  execute_select c.

(** [Promocode.create]: the query, then the commit guarded by
    [except IntegrityError]; any other exception propagates, and so does
    whatever the query raises, which is outside the [try]. *)
Definition create (c : string) : M State (option Promocode) :=
  do promocode <- execute_select c;
  try_except
    (run commit; ret promocode)
    (fun exception =>
       match exception with
       | IntegrityError _ =>
           run rollback;
           run logger_error ("Error occurred while creating promocode " +:+ c +:+ ": "
                             +:+ exc_str exception);
           ret None
       | _ => raise exception
       end).

(** [Promocode.exists] *)
Definition exists_ (c : string) : M State bool :=
  do r <- execute_select c;
  ret (match r with Some _ => true | None => false end).

(** [Promocode.delete]; an ORM object is truthy, so [if promocode:] tests
    for [None]. *)
Definition delete (c : string) : M State bool :=
  do promocode <- execute_select c;
  match promocode with
  | Some p => run session_delete p; run commit; ret true
  | None => ret false
  end.

(** The schema's constraints on the table: [id] is the primary key and
    [code] is unique. *)
Definition table_ok (t : list Promocode) : Prop :=
  NoDup (id <$> t) /\ NoDup (code <$> t).

Global Instance table_ok_dec t : Decision (table_ok t).
Proof. unfold table_ok. apply _. Defined.

(** The text of SQLite's driver for a duplicate [code], as SQLAlchemy
    wraps it; the statement and its parameters, which SQLAlchemy appends,
    are left out. *)
Definition sqlite_text (p : Promocode) : string :=
  "(sqlite3.IntegrityError) UNIQUE constraint failed: promocodes.code".

(** A session as [async_sessionmaker] hands it out with its default
    settings: a new transaction, nothing pending. *)
Definition open_session (t : list Promocode) : State :=
  {| session := {| autoflush := true; integrity_text := sqlite_text;
                   committed := t; table := t;
                   pending_new := []; pending_deleted := [];
                   inactive := false |};
     log := [] |}.

Definition clean (s : AsyncSession) : Prop :=
  pending_new s = [] /\ pending_deleted s = [].

(** Nothing pending, nothing flushed and not committed, and the session
    works. *)
Definition settled (s : AsyncSession) : Prop :=
  clean s /\ inactive s = false /\ committed s = table s.

(** Two states that [rollback] takes to the same session, with the
    same log. *)
Definition same_base (st st' : State) : Prop :=
  rollback_session (session st') = rollback_session (session st) /\
  log st' = log st.

(** Sample rows and sessions. *)
Definition promo_abc : Promocode :=
  {| id := 1; code := "ABC123"; duration := 3600; is_activated := false;
     activated_by := None; created_at := 0 |}.
Definition promo_xyz : Promocode :=
  {| id := 2; code := "XYZ789"; duration := 30; is_activated := true;
     activated_by := Some 7; created_at := 5 |}.
Definition promo_new : Promocode :=
  {| id := 0; code := "NEW2025"; duration := 7; is_activated := false;
     activated_by := None; created_at := 9 |}.

Definition sample_table : list Promocode := [promo_abc; promo_xyz].

(** A session over the table [t] to which the caller has added the
    objects [news]. *)
Definition session_with_added (flag : bool) (t news : list Promocode) : State :=
  {| session := {| autoflush := flag; integrity_text := sqlite_text;
                   committed := t; table := t;
                   pending_new := news; pending_deleted := [];
                   inactive := false |};
     log := [] |}.

(** A session made with [autoflush=False] whose caller added a second
    object with the code "ABC123": the [INSERT] waits for the commit. *)
Definition st_duplicate_pending : State :=
  session_with_added false [promo_abc] [promo_abc].

(** The same with [autoflush] left on: the [INSERT] goes out with the
    next query. *)
Definition st_duplicate_autoflush : State :=
  session_with_added true [promo_abc] [promo_abc].

(** A session with [autoflush] on whose caller added a promo code that
    is not in the table yet. *)
Definition st_new_pending : State :=
  session_with_added true sample_table [promo_new].

End Promocode.


(** ** The models and collaborators the handlers share *)

(** [SubscriptionData] and [User], as far as the handlers read them. *)
Record SubscriptionData := {
  state : string;
  is_extend : bool;
  user_id : Z;
  devices : Z;
  duration : Z;
  price : Z;
  message_id : Z
}.

Record User := {
  tg_id : Z;
  full_name : string;
  language_code : string
}.

(** [app.bot.utils.constants.TransactionStatus] *)
Inductive TransactionStatus := PENDING | COMPLETED | CANCELED.

(** What a caller hands to the [status] column: a member of the
    enumeration (the YooKassa gateway) or a bare string (the Telegram Stars
    handler passes [status="success"]). *)
Inductive StatusValue :=
| StatusEnum (s : TransactionStatus)
| StatusStr (s : string).

Record Transaction := {
  tx_user : Z;
  subscription : string;
  payment_id : string;
  status : StatusValue
}.

Definition with_status (v : StatusValue) (t : Transaction) : Transaction :=
  {| tx_user := tx_user t; subscription := subscription t;
     payment_id := payment_id t; status := v |}.

(** Texts and keyboards are kept symbolic: the translated template and the
    values formatted into it. *)
Inductive Text :=
| WelcomeText (name : string)
| PaymentExtendedText (duration : Z)
| PaymentKeyText (key : string).

Inductive Keyboard :=
| MainMenuKeyboard (is_admin : bool)
| BackToMainMenuKeyboard
| PaymentSuccessKeyboard.

(** Calls that leave the process: the Telegram Bot API, the FSM storage
    and the VPN and notification services. *)
Inductive ExtCall :=
| DeleteMessage (chat_id message_id : Z)
| MessageAnswer (text : Text) (reply_markup : Keyboard)
| MessageDelete (chat_id message_id : Z)
| RefundStarPayment (user_id : Z) (charge_id : string)
| UseLocale (locale : string)
| RedirectToMainMenu (user : option User)
| ExtendSubscription (user : option User) (devices duration : Z)
| CreateSubscription (user : option User) (devices duration : Z)
| GetKey (user : option User)
| ExtendSubscriptionById (user_id devices duration : Z)
| CreateSubscriptionById (user_id devices duration : Z)
| GetKeyById (user_id : Z)
| NotifyExtendSuccess (user_id : Z) (data : SubscriptionData)
| NotifyPurchaseSuccess (user_id : Z) (key : string).

(** What the handlers act on: the [transactions] and [users] tables, the
    FSM data of the chat, the log records written so far and the external
    calls made so far. *)
Record World := {
  transactions : list Transaction;
  users : list User;
  fsm_data : gmap string Z;
  log : list LogRecord;
  calls : list ExtCall
}.

Definition set_transactions (f : list Transaction -> list Transaction) (w : World) : World :=
  {| transactions := f (transactions w); users := users w; fsm_data := fsm_data w;
     log := log w; calls := calls w |}.
Definition set_fsm_data (f : gmap string Z -> gmap string Z) (w : World) : World :=
  {| transactions := transactions w; users := users w; fsm_data := f (fsm_data w);
     log := log w; calls := calls w |}.
Definition add_log (r : LogRecord) (w : World) : World :=
  {| transactions := transactions w; users := users w; fsm_data := fsm_data w;
     log := log w ++ [r]; calls := calls w |}.
Definition add_call (c : ExtCall) (w : World) : World :=
  {| transactions := transactions w; users := users w; fsm_data := fsm_data w;
     log := log w; calls := calls w ++ [c] |}.

Definition logger (l : Level) (msg : string) : M World unit :=
  modify (add_log {| levelname := l; message := msg |}).

(** The parts of the environment that the sources do not contain: how the
    collaborators answer, and the codec of [SubscriptionData]. *)
Record Env := {
  (** [None]: the call returns; [Some e]: it raises [e]. *)
  answer_of : ExtCall -> option PyExc;
  vpn_key : string;
  sent_message_id : Z;
  is_admin : bool;
  is_dev : bool;
  pack : SubscriptionData -> string;
  unpack : string -> Outcome SubscriptionData
}.

(** An awaited external call: it is recorded, then returns or raises. *)
Definition call (env : Env) (c : ExtCall) : M World unit :=
  fun w => (match answer_of env c with
            | None => Returned tt
            | Some e => Raised e
            end, add_call c w).

(** [Transaction] of [app.db.models] is not among the sources. The spec
    describes it as "a payment record keyed by a gateway-issued payment
    identifier", with "unique ... payment identifiers" and the lifecycle
    "create-on-request, update-on-webhook-or-payment-event,
    read-by-primary-key-or-unique-code". *)
Module TransactionModel.

(** Modelled from the spec: [Transaction.get_by_id], the read by the
    unique payment identifier; [None] when no row is stored under it. *)
Definition get_by_id (pid : string) : M World (option Transaction) :=
  do w <- get_state;
  ret (head (filter (fun t => payment_id t = pid) (transactions w))).

(** Modelled from the spec: [Transaction.create], the insertion of a row;
    payment identifiers are unique, so a second row with an identifier
    already stored is refused. *)
Definition create (user : Z) (sub pid : string) (st : StatusValue)
  : M World (option Transaction) :=
  do w <- get_state;
  if bool_decide (pid ∈ payment_id <$> transactions w)
  then ret None
  else
    let row := {| tx_user := user; subscription := sub; payment_id := pid;
                  status := st |} in
    run modify (set_transactions (fun ts => ts ++ [row]));
    ret (Some row).

(** [UPDATE transactions SET status = ? WHERE payment_id = ?] on a row. *)
Definition set_status_where (pid : string) (v : StatusValue) (t : Transaction)
  : Transaction :=
  if bool_decide (payment_id t = pid) then with_status v t else t.

(** Modelled from the spec: [Transaction.update], the update of the row
    stored under a payment identifier. *)
Definition update (pid : string) (st : StatusValue) : M World unit :=
  modify (set_transactions (fmap (set_status_where pid st))).

End TransactionModel.

(** Modelled from the spec: [User.get] of [app.db.models], a read by the
    unique Telegram identifier. *)
Definition User_get (uid : Z) : M World (option User) :=
  do w <- get_state;
  ret (head (filter (fun u => tg_id u = uid) (users w))).

(** The three values of the enumeration, as stored. *)
Definition enumerated (v : StatusValue) : Prop :=
  v ∈ [StatusEnum PENDING; StatusEnum COMPLETED; StatusEnum CANCELED].

(** The transactions table is left as it was. *)
Definition same_transactions (w w' : World) : Prop :=
  transactions w' = transactions w.

(** The row stored under a payment identifier holds an enumerated status. *)
Definition row_enumerated (pid : string) (w : World) : Prop :=
  exists row, (TransactionModel.get_by_id pid w).1 = Returned (Some row) /\
              enumerated (status row).

(** A row with an enumerated status keeps one. *)
Definition keeps_row (pid : string) (w w' : World) : Prop :=
  row_enumerated pid w -> row_enumerated pid w'.

(** ** src/app/bot/payment_gateways/yookassa.py *)
Module Yookassa.

(** A decoded JSON document, as [request.json()] returns it. *)
#[local] Unset Elimination Schemes.
Inductive Json :=
| JNull
| JBool (b : bool)
| JNumber (n : Z)
| JString (s : string)
| JArray (items : list Json)
| JObject (members : list (string * Json)).
#[local] Set Elimination Schemes.

(** [aiohttp.web.Request], as far as the handler reads it; [json] is the
    result of awaiting [request.json()]. *)
Record Request := {
  headers : gmap string string;
  remote : option string;
  json : Outcome Json
}.

Record Response := { status_code : Z }.

(** The notification object built by the SDK's factory. *)
Record Notification := {
  event : string;
  object_id : string
}.

(** [yookassa.domain.notification.WebhookNotificationEventType] *)
Definition PAYMENT_WAITING_FOR_CAPTURE : string := "payment.waiting_for_capture".
Definition PAYMENT_SUCCEEDED : string := "payment.succeeded".
Definition PAYMENT_CANCELED : string := "payment.canceled".
Definition REFUND_SUCCEEDED : string := "refund.succeeded".

Record Amount := { value : string; currency : string }.
Record ReceiptItem := {
  item_description : string; quantity : Z; item_amount : Amount; vat_code : Z
}.
Record Receipt := { customer_email : string; items : list ReceiptItem }.
Record PaymentRequest := {
  amount : Amount;
  confirmation_type : string;
  return_url : string;
  capture : bool;
  save_payment_method : bool;
  description : string;
  receipt : Receipt
}.
Record PaymentResponse := { id : string; confirmation_url : string }.

(** The gateway object: its configuration and the SDK entry points it
    calls, which are not part of the sources. *)
Record Self := {
  shop_email : string;
  get_me_username : Outcome string;
  invoice_description : Z -> Z -> string;
  Payment_create : PaymentRequest -> Outcome PaymentResponse;
  is_ip_trusted : option string -> Outcome bool;
  WebhookNotificationFactory_create : Json -> Outcome Notification
}.

(** [Currency.RUB.value] *)
Definition RUB : string := "RUB".
(** [ConfirmationType.REDIRECT] *)
Definition REDIRECT : string := "redirect".

(** The receipt and the payment request that [create_payment] builds. *)
Definition build_request (self : Self) (data : SubscriptionData)
    (bot_username : string) : PaymentRequest :=
  let redirect_url := "https://t.me/" +:+ bot_username in
  let description := invoice_description self (devices data) (duration data) in
  let currency := RUB in
  let price := pretty (price data) in
  let receipt :=
    {| customer_email := shop_email self;
       items := [ {| item_description := description; quantity := 1;
                     item_amount := {| value := price; currency := currency |};
                     vat_code := 1 |} ] |} in
  {| amount := {| value := price; currency := currency |};
     confirmation_type := REDIRECT; return_url := redirect_url;
     capture := true; save_payment_method := false;
     description := description; receipt := receipt |}.

Definition create_payment (env : Env) (self : Self) (data : SubscriptionData)
  : M World string :=
  do bot_username <- lift_outcome (get_me_username self);
  let request := build_request self data bot_username in
  do response <- lift_outcome (Payment_create self request);
  run TransactionModel.create (user_id data) (pack env data) (id response)
        (StatusEnum PENDING);
  let pay_url := confirmation_url response in
  run logger INFO ("Payment link created for user " +:+ pretty (user_id data)
                   +:+ ": " +:+ pay_url);
  ret pay_url.

(** [transaction.subscription]: attribute access on the result of
    [get_by_id], which may be [None]. *)
Definition subscription_of (transaction : option Transaction) : Outcome string :=
  match transaction with
  | Some t => Returned (subscription t)
  | None => Raised (AttributeError "NoneType" "subscription")
  end.

(** The [async with self.session()] block of [handle_payment_succeeded];
    the debug record shows the data by its packed form. *)
Definition succeeded_session_block (env : Env) (pid : string)
  : M World (option User * SubscriptionData) :=
  do transaction <- TransactionModel.get_by_id pid;
  do packed <- lift_outcome (subscription_of transaction);
  do data <- lift_outcome (unpack env packed);
  run logger DEBUG ("Subscription data unpacked: " +:+ packed);
  do user <- User_get (user_id data);
  run TransactionModel.update pid (StatusEnum COMPLETED);
  ret (user, data).

(** The [with self.i18n.use_locale(locale)] block. *)
Definition succeeded_locale_block (env : Env) (user : option User)
    (data : SubscriptionData) : M World unit :=
  let locale := match user with Some u => language_code u | None => "en" end in
  run call env (UseLocale locale);
  run call env (RedirectToMainMenu user);
  if is_extend data then
    run call env (ExtendSubscription user (devices data) (duration data));
    run logger INFO ("Subscription extended for user " +:+ pretty (user_id data));
    call env (NotifyExtendSuccess (user_id data) data)
  else
    run call env (CreateSubscription user (devices data) (duration data));
    run logger INFO ("Subscription created for user " +:+ pretty (user_id data));
    run call env (GetKey user);
    call env (NotifyPurchaseSuccess (user_id data) (vpn_key env)).

Definition handle_payment_succeeded (env : Env) (pid : string) : M World unit :=
  run logger INFO ("Payment succeeded " +:+ pid);
  do found <- succeeded_session_block env pid;
  succeeded_locale_block env found.1 found.2.

Definition handle_payment_canceled (env : Env) (pid : string) : M World unit :=
  run logger INFO ("Payment canceled " +:+ pid);
  do transaction <- TransactionModel.get_by_id pid;
  do packed <- lift_outcome (subscription_of transaction);
  do data <- lift_outcome (unpack env packed);
  TransactionModel.update pid (StatusEnum CANCELED).

(** [request.headers.get("X-Forwarded-For", request.remote)] *)
Definition source_ip (request : Request) : option string :=
  match headers request !! "X-Forwarded-For" with
  | Some v => Some v
  | None => remote request
  end.

(** The body of the [try] block of [webhook_handler]. *)
Definition process_event (env : Env) (self : Self) (event_json : Json)
  : M World Response :=
  do notification_object <-
    lift_outcome (WebhookNotificationFactory_create self event_json);
  let payment_id := object_id notification_object in
  if bool_decide (event notification_object = PAYMENT_SUCCEEDED) then
    run handle_payment_succeeded env payment_id;
    ret {| status_code := 200 |}
  else if bool_decide (event notification_object = PAYMENT_CANCELED) then
    run handle_payment_canceled env payment_id;
    ret {| status_code := 200 |}
  else
    ret {| status_code := 400 |}.

Definition webhook_handler (env : Env) (self : Self) (request : Request)
  : M World Response :=
  let ip := source_ip request in
  do trusted <- lift_outcome (is_ip_trusted self ip);
  if negb trusted then ret {| status_code := 403 |}
  else
    do event_json <- lift_outcome (json request);
    try_except
      (process_event env self event_json)
      (fun exception =>
         run logger ERROR ("Error processing YooKassa webhook: "
                           +:+ exc_str exception);
         ret {| status_code := 400 |}).

(** Sample collaborators and inputs. *)
Definition sample_data : SubscriptionData :=
  {| state := "pay_yookassa"; is_extend := false; user_id := 42; devices := 2;
     duration := 30; price := 150; message_id := 900 |}.

Definition sample_pack (d : SubscriptionData) : string :=
  "subscription:" +:+ state d +:+ ":" +:+ pretty (user_id d) +:+ ":"
  +:+ pretty (devices d) +:+ ":" +:+ pretty (duration d).

Definition sample_env : Env :=
  {| answer_of := fun _ => None;
     vpn_key := "vless://key";
     sent_message_id := 901;
     is_admin := false;
     is_dev := false;
     pack := sample_pack;
     unpack := fun s => if bool_decide (s = sample_pack sample_data)
                        then Returned sample_data
                        else Raised (ValueError "Bad prefix") |}.

Definition sample_factory (j : Json) : Outcome Notification :=
  match j with
  | JObject [("type", JString "notification"); ("event", JString e);
             ("object", JObject (("id", JString i) :: _))] =>
      Returned {| event := e; object_id := i |}
  | JObject _ => Raised (ValueError "Parameter 'data' is not valid")
  | _ => Raised (TypeError "Parameter 'data' should be a dict")
  end.

Definition sample_self : Self :=
  {| shop_email := "shop@example.com";
     get_me_username := Returned "shop_bot";
     invoice_description := fun d t => pretty d +:+ " devices, " +:+ pretty t +:+ " days";
     Payment_create := fun _ =>
       Returned {| id := "pay-1";
                   confirmation_url := "https://yoomoney.ru/checkout?orderId=pay-1" |};
     is_ip_trusted := fun ip => Returned (bool_decide (ip = Some "185.71.76.1"));
     WebhookNotificationFactory_create := sample_factory |}.

Definition notification_json (ev pid : string) : Json :=
  JObject [("type", JString "notification"); ("event", JString ev);
           ("object", JObject [("id", JString pid); ("status", JString "x")])].

Definition sample_request (ip : string) (body : Outcome Json) : Request :=
  {| headers := {[ "X-Forwarded-For" := ip ]}; remote := Some "10.0.0.1";
     json := body |}.

Definition empty_world : World :=
  {| transactions := []; users := []; fsm_data := ∅; log := []; calls := [] |}.

End Yookassa.

(** ** src/app/bot/routes/admin_tools/restart_handler.py *)
Module Restart.

(** What the handler asks of the operating system. *)
Inductive OsAction :=
| System (command : string)
| Execv (path : string) (args : list string).

(** The process as [os] and [sys] present it. *)
Record Process := {
  environ : gmap string string;
  executable : string;
  argv : list string
}.

Record State := { log : list LogRecord; actions : list OsAction }.

Definition logger_info (msg : string) : M State unit :=
  modify (fun st => {| log := log st ++ [ {| levelname := INFO; message := msg |} ];
                       actions := actions st |}).

Definition os_action (a : OsAction) : M State unit :=
  modify (fun st => {| log := log st; actions := actions st ++ [a] |}).

(** [os.getenv(key, None)] *)
Definition getenv (proc : Process) (key : string) : option string :=
  environ proc !! key.

(** Truth value of an optional string: [None] and the empty string are
    false. *)
Definition truthy (name : option string) : bool :=
  match name with
  | Some s => negb (String.eqb s "")
  | None => false
  end.

Definition callback_restart_bot (proc : Process) (from_user_id : Z) : M State unit :=
  run logger_info ("Admin " +:+ pretty from_user_id +:+ " restarted bot.");
  let name := getenv proc "HOSTNAME" in
  if truthy name then
    os_action (System ("docker restart " +:+ default "" name))
  else
    os_action (Execv (executable proc) (executable proc :: argv proc)).

Definition in_container : Process :=
  {| environ := {[ "HOSTNAME" := "3xui-shop-bot"; "PATH" := "/usr/bin" ]};
     executable := "/usr/local/bin/python";
     argv := ["-m"; "app"] |}.

Definition on_host : Process :=
  {| environ := {[ "PATH" := "/usr/bin" ]};
     executable := "/usr/bin/python3";
     argv := ["app/__main__.py"] |}.

Definition idle : State := {| log := []; actions := [] |}.

End Restart.

(** ** src/app/bot/routes/main_menu/handler.py *)
Module MainMenu.

(** [aiogram.types.Message], as far as the handler reads it. *)
Record Message := {
  chat_id : Z;
  msg_id : Z;
  from_user : User
}.

(** [FSMContext]: [get_value], [clear] and [update_data] on the chat's
    data. *)
Definition state_get_value (key : string) : M World (option Z) :=
  do w <- get_state; ret (fsm_data w !! key).
Definition state_clear : M World unit :=
  modify (set_fsm_data (fun _ => ∅)).
Definition state_update_data (key : string) (v : Z) : M World unit :=
  modify (set_fsm_data (insert key v)).

(** Truth value of an optional integer: [None] and [0] are false. *)
Definition truthy (v : option Z) : bool :=
  match v with
  | Some n => negb (n =? 0)
  | None => false
  end.

Definition prepare_message (user : User) : Text :=
  WelcomeText (full_name user).

Definition command_main_menu (env : Env) (message : Message) : M World unit :=
  run logger INFO ("User " +:+ pretty (tg_id (from_user message))
                   +:+ " opened main menu page.");
  do previous_message_id <- state_get_value "message_id";
  run (if truthy previous_message_id then
         let previous := default 0 previous_message_id in
         try_finally
           (try_except
              (call env (DeleteMessage (chat_id message) previous))
              (fun e =>
                 logger WARNING ("Couldn't delete message with ID "
                                 +:+ pretty previous +:+ ": " +:+ exc_str e)))
           state_clear
       else ret tt);
  let is_admin := is_admin env in
  run call env (MessageAnswer (prepare_message (from_user message))
                              (MainMenuKeyboard is_admin));
  run state_update_data "message_id" (sent_message_id env);
  call env (MessageDelete (chat_id message) (msg_id message)).

End MainMenu.

(** ** src/app/bot/routes/subscription/payment_handler.py *)
Module PaymentHandler.

Record SuccessfulPayment := {
  invoice_payload : string;
  telegram_payment_charge_id : string
}.

Record Message := {
  chat_id : Z;
  from_user : User;
  successful_payment_ : SuccessfulPayment
}.

(** Attribute access on a [SubscriptionData] object, rendered as the
    f-string renders it. The class is not among the sources; its fields
    are those the handlers read. Any other name raises. *)
Definition getattr (data : SubscriptionData) (name : string) : Outcome string :=
  if bool_decide (name = "state") then Returned (state data)
  else if bool_decide (name = "is_extend") then
    Returned (if is_extend data then "True" else "False")
  else if bool_decide (name = "user_id") then Returned (pretty (user_id data))
  else if bool_decide (name = "devices") then Returned (pretty (devices data))
  else if bool_decide (name = "duration") then Returned (pretty (duration data))
  else if bool_decide (name = "price") then Returned (pretty (price data))
  else if bool_decide (name = "message_id") then Returned (pretty (message_id data))
  else Raised (AttributeError "SubscriptionData" name).

Definition successful_payment (env : Env) (message : Message) : M World unit :=
  let user := from_user message in
  let payment := successful_payment_ message in
  run logger INFO ("Payment successful for user " +:+ pretty (tg_id user));
  do data <- lift_outcome (unpack env (invoice_payload payment));
  run logger DEBUG ("Subscription data unpacked: " +:+ invoice_payload payment);
  run (if is_dev env then
         call env (RefundStarPayment (tg_id user) (telegram_payment_charge_id payment))
       else ret tt);
  run try_except
        (call env (DeleteMessage (chat_id message) (message_id data)))
        (fun e =>
           do shown <- lift_outcome (getattr data "message_idd");
           logger WARNING ("Couldn't delete message with ID " +:+ shown +:+ ": "
                           +:+ exc_str e));
  run (if is_extend data then
         run call env (ExtendSubscriptionById (user_id data) (devices data) (duration data));
         logger INFO ("Subscription extented for user " +:+ pretty (user_id data))
       else
         run call env (CreateSubscriptionById (user_id data) (devices data) (duration data));
         logger INFO ("Subscription created for user " +:+ pretty (user_id data)));
  run TransactionModel.create (tg_id user) (invoice_payload payment)
        (telegram_payment_charge_id payment) (StatusStr "success");
  if is_extend data then
    call env (MessageAnswer (PaymentExtendedText (duration data)) BackToMainMenuKeyboard)
  else
    run call env (GetKeyById (tg_id user));
    call env (MessageAnswer (PaymentKeyText (vpn_key env)) PaymentSuccessKeyboard).

(** A paying user, and a Bot API that refuses to delete the invoice
    message (it is gone already). *)
Definition alice : User :=
  {| tg_id := 42; full_name := "Alice"; language_code := "en" |}.

Definition stars_message : Message :=
  {| chat_id := 42; from_user := alice;
     successful_payment_ :=
       {| invoice_payload := Yookassa.sample_pack Yookassa.sample_data;
          telegram_payment_charge_id := "stars-charge-1" |} |}.

Definition delete_fails : Env :=
  {| answer_of := fun c => match c with
                           | DeleteMessage _ _ =>
                               Some (TelegramBadRequest "message to delete not found")
                           | _ => None
                           end;
     vpn_key := vpn_key Yookassa.sample_env;
     sent_message_id := sent_message_id Yookassa.sample_env;
     is_admin := false;
     is_dev := false;
     pack := pack Yookassa.sample_env;
     unpack := unpack Yookassa.sample_env |}.

(** A VPN panel that is down. *)
Definition vpn_down : Env :=
  {| answer_of := fun c => match c with
                           | CreateSubscription _ _ _ => Some (ServiceError "vpn")
                           | _ => None
                           end;
     vpn_key := vpn_key Yookassa.sample_env;
     sent_message_id := sent_message_id Yookassa.sample_env;
     is_admin := false;
     is_dev := false;
     pack := pack Yookassa.sample_env;
     unpack := unpack Yookassa.sample_env |}.

Definition menu_message : MainMenu.Message :=
  {| MainMenu.chat_id := 42; MainMenu.msg_id := 950; MainMenu.from_user := alice |}.

Definition world_with_menu : World :=
  set_fsm_data (insert "message_id" 900) Yookassa.empty_world.

End PaymentHandler.

(** ** src/app/logger.py *)
Module Logger.

(** What a path of the log directory holds. *)
Inductive File :=
| TextFile (lines : list string)
| ZipArchive (member : string) (lines : list string)
| GzArchive (lines : list string).

Record CompressingFileHandler := {
  baseFilename : string;
  when_ : string;
  interval : Z;
  backupCount : nat;
  encoding : option string;
  delay : bool;
  utc : bool;
  atTime : option Z;
  archive_format : string;
  (** whether a record of level INFO sent to the root logger reaches
      this handler *)
  root_emits_info : bool
}.

(** *** Strings *)

Definition is_digit (a : Ascii.ascii) : bool :=
  let n := Ascii.N_of_ascii a in ((48 <=? n) && (n <=? 57))%N.

Definition is_word (a : Ascii.ascii) : bool :=
  let n := Ascii.N_of_ascii a in
  (is_digit a || ((65 <=? n) && (n <=? 90)) || ((97 <=? n) && (n <=? 122))
   || (n =? 95))%N.

Definition is_dash (a : Ascii.ascii) : bool := (Ascii.N_of_ascii a =? 45)%N.

(** The handler's [extMatch] for [when="midnight"]:
    [^\d{4}-\d{2}-\d{2}(\.\w+)?$]. *)
Definition ext_match (suffix : string) : bool :=
  match String.list_ascii_of_string suffix with
  | y1 :: y2 :: y3 :: y4 :: d1 :: m1 :: m2 :: d2 :: a1 :: a2 :: rest =>
      is_digit y1 && is_digit y2 && is_digit y3 && is_digit y4 && is_dash d1
      && is_digit m1 && is_digit m2 && is_dash d2 && is_digit a1 && is_digit a2
      && match rest with
         | [] => true
         | dot :: (_ :: _) as ext =>
             (Ascii.N_of_ascii dot =? 46)%N && forallb is_word ext
         | _ => false
         end
  | _ => false
  end.

Fixpoint strip_prefix (p s : string) : option string :=
  match p, s with
  | EmptyString, _ => Some s
  | String a p', String b s' => if Ascii.eqb a b then strip_prefix p' s' else None
  | String _ _, EmptyString => None
  end.

(** [os.path.basename] *)
Fixpoint basename_go (acc : string) (s : list Ascii.ascii) : string :=
  match s with
  | [] => String.rev acc
  | a :: s' => if (Ascii.N_of_ascii a =? 47)%N then basename_go "" s'
               else basename_go (String a acc) s'
  end.
Definition basename (path : string) : string :=
  basename_go "" (String.list_ascii_of_string path).

Definition upper_ascii (a : Ascii.ascii) : Ascii.ascii :=
  let n := Ascii.N_of_ascii a in
  if ((97 <=? n) && (n <=? 122))%N then Ascii.ascii_of_N (n - 32) else a.
(** [str.upper] *)
Definition upper (s : string) : string :=
  String.string_of_list_ascii (upper_ascii <$> String.list_ascii_of_string s).

(** *** The file system calls *)

Definition os_path_exists (path : string) : M (gmap string File) bool :=
  do fs <- get_state; ret (bool_decide (is_Some (fs !! path))).

Definition os_remove (path : string) : M (gmap string File) unit :=
  fun fs => match fs !! path with
            | Some _ => (Returned tt, delete path fs)
            | None => (Raised (FileNotFoundError path), fs)
            end.

Definition os_rename (src dst : string) : M (gmap string File) unit :=
  fun fs => match fs !! src with
            | Some f => (Returned tt, <[dst := f]> (delete src fs))
            | None => (Raised (FileNotFoundError src), fs)
            end.

(** [open(path, "a")]: the file is created when it is missing. *)
Definition open_append (path : string) : M (gmap string File) unit :=
  modify (fun fs => match fs !! path with
                    | Some _ => fs
                    | None => <[path := TextFile []]> fs
                    end).

Definition write_line (path line : string) : M (gmap string File) unit :=
  modify (alter (fun f => match f with
                          | TextFile ls => TextFile (ls ++ [line])
                          | other => other
                          end) path).

(** The bytes of a file, read for archiving. *)
Definition read_lines (path : string) : M (gmap string File) (list string) :=
  fun fs => match fs !! path with
            | Some (TextFile ls) => (Returned ls, fs)
            | Some (ZipArchive _ ls) => (Returned ls, fs)
            | Some (GzArchive ls) => (Returned ls, fs)
            | None => (Raised (FileNotFoundError path), fs)
            end.

Fixpoint for_each {S A} (xs : list A) (body : A -> M S unit) : M S unit :=
  match xs with
  | [] => ret tt
  | x :: rest => run body x; for_each rest body
  end.

(** *** [logging.handlers.TimedRotatingFileHandler] *)

(** [BaseRotatingHandler.rotation_filename] without a [namer]. *)
Definition rotation_filename (default_name : string) : string := default_name.

Definition string_le (a b : string) : Prop := String.leb a b = true.
Global Instance string_le_dec a b : Decision (string_le a b).
Proof. unfold string_le. apply _. Defined.

(** A path of the form [<prefix><date>] or [<prefix><date>.<ext>]. *)
Definition is_rotated (prefix path : string) : bool :=
  match strip_prefix prefix path with
  | Some suffix => ext_match suffix
  | None => false
  end.

(** The rotated files that have to go: those named
    [<baseFilename>.<date>], all but the newest [backupCount]. *)
Definition getFilesToDelete (h : CompressingFileHandler) (fs : gmap string File)
  : list string :=
  let prefix := baseFilename h +:+ "." in
  let result :=
    filter (fun path => is_rotated prefix path = true) (elements (dom fs)) in
  if decide (length result < backupCount h)%nat then []
  else
    let sorted := merge_sort string_le result in
    take (length sorted - backupCount h) sorted.

(** [TimedRotatingFileHandler.doRollover]; [stamp] is the date of the
    day that ended, formatted with the handler's suffix [%Y-%m-%d]. *)
Definition TimedRotatingFileHandler_doRollover (h : CompressingFileHandler)
    (stamp : string) : M (gmap string File) unit :=
  let dfn := rotation_filename (baseFilename h +:+ "." +:+ stamp) in
  do stale <- os_path_exists dfn;
  run (if stale then os_remove dfn else ret tt);
  do present <- os_path_exists (baseFilename h);
  run (if present then os_rename (baseFilename h) dfn else ret tt);
  do fs <- get_state;
  run (if decide (0 < backupCount h)%nat
       then for_each (getFilesToDelete h fs) os_remove else ret tt);
  if negb (delay h) then open_append (baseFilename h) else ret tt.

(** [logging.info] from inside the handler: the record goes to the root
    logger and, if its level lets it through, to this handler's stream,
    which is opened when it is not. *)
Definition logging_info (h : CompressingFileHandler) (msg : string)
  : M (gmap string File) unit :=
  if root_emits_info h then
    run open_append (baseFilename h);
    write_line (baseFilename h) msg
  else ret tt.

(** *** [CompressingFileHandler] *)

Definition _archive_to_zip (h : CompressingFileHandler) (log_file : string)
  : M (gmap string File) unit :=
  let zip_file := log_file +:+ ".zip" in
  run logging_info h ("Archiving " +:+ log_file +:+ " to " +:+ zip_file);
  do content <- read_lines log_file;
  modify (insert zip_file (ZipArchive (basename log_file) content)).

Definition _archive_to_gz (h : CompressingFileHandler) (log_file : string)
  : M (gmap string File) unit :=
  let gz_file := log_file +:+ ".gz" in
  run logging_info h ("Archiving " +:+ log_file +:+ " to " +:+ gz_file);
  do content <- read_lines log_file;
  modify (insert gz_file (GzArchive content)).

Definition doRollover (h : CompressingFileHandler) (stamp : string)
  : M (gmap string File) unit :=
  run TimedRotatingFileHandler_doRollover h stamp;
  let log_file := rotation_filename (baseFilename h) in
  run (if bool_decide (archive_format h = "zip") then _archive_to_zip h log_file
       else if bool_decide (archive_format h = "gz") then _archive_to_gz h log_file
       else ret tt);
  os_remove log_file.

(** *** [setup_logging] *)

Record LoggingConfig := {
  DIR : string;
  LEVEL : string;
  FORMAT : string;
  ARCHIVE_FORMAT : string
}.

(** [getattr(logging, name, logging.INFO)] for the level names. *)
Definition level_of_name (name : string) : Level :=
  if bool_decide (name = "DEBUG") then DEBUG
  else if bool_decide (name = "WARNING") then WARNING
  else if bool_decide (name = "ERROR") then ERROR
  else if bool_decide (name = "CRITICAL") then CRITICAL
  else INFO.

Definition lets_info_through (l : Level) : bool :=
  match l with DEBUG | INFO => true | _ => false end.

(** The file handler that [setup_logging] installs; [today] is the date
    in UTC+3 when the bot starts. The constructor opens the log file and
    refuses an archive format other than "zip" and "gz". *)
Definition setup_logging (config : LoggingConfig) (today : string)
  : M (gmap string File) CompressingFileHandler :=
  let filename := DIR config +:+ "/" +:+ today +:+ ".log" in
  run open_append filename;
  if bool_decide (ARCHIVE_FORMAT config = "zip")
     || bool_decide (ARCHIVE_FORMAT config = "gz")
  then ret {| baseFilename := filename; when_ := "midnight"; interval := 1;
              backupCount := 7; encoding := Some "utf-8"; delay := false;
              utc := false; atTime := None;
              archive_format := ARCHIVE_FORMAT config;
              root_emits_info :=
                lets_info_through (level_of_name (upper (LEVEL config))) |}
  else raise (ValueError "archive_format must be either 'zip' or 'gz'").

(** A first day of logging. *)
Definition zip_config : LoggingConfig :=
  {| DIR := "logs"; LEVEL := "info"; FORMAT := "%(message)s";
     ARCHIVE_FORMAT := "zip" |}.

Definition day_one : list string := ["bot started"; "user 42 paid"].

Definition disk_after_day_one : gmap string File :=
  {[ "logs/2025-01-01.log" := TextFile day_one ]}.

(** The handler [setup_logging] installs for [zip_config] on
    2025-01-01. *)
Definition zip_handler : CompressingFileHandler :=
  {| baseFilename := "logs/2025-01-01.log"; when_ := "midnight"; interval := 1;
     backupCount := 7; encoding := Some "utf-8"; delay := false; utc := false;
     atTime := None; archive_format := "zip"; root_emits_info := true |}.

Definition gz_handler : CompressingFileHandler :=
  {| baseFilename := "logs/2025-01-01.log"; when_ := "midnight"; interval := 1;
     backupCount := 7; encoding := Some "utf-8"; delay := false; utc := false;
     atTime := None; archive_format := "gz"; root_emits_info := false |}.

(** A directory that already holds eight rotated files. *)
Definition disk_with_backups : gmap string File :=
  list_to_map
    [ ("logs/2025-01-01.log", TextFile ["day nine"]);
      ("logs/2025-01-01.log.2025-01-01", TextFile ["day one"]);
      ("logs/2025-01-01.log.2025-01-02", TextFile ["day two"]);
      ("logs/2025-01-01.log.2025-01-03", TextFile ["day three"]);
      ("logs/2025-01-01.log.2025-01-04", TextFile ["day four"]);
      ("logs/2025-01-01.log.2025-01-05", TextFile ["day five"]);
      ("logs/2025-01-01.log.2025-01-06", TextFile ["day six"]);
      ("logs/2025-01-01.log.2025-01-07", TextFile ["day seven"]);
      ("logs/2025-01-01.log.2025-01-08", TextFile ["day eight"]);
      ("logs/2025-01-01.log.zip", ZipArchive "2025-01-01.log" []) ].

End Logger.

(** ** The bot as a whole *)
Module Bot.

(** What reaches the bot: payment requests and YooKassa notifications,
    Telegram Stars payments and /start commands, in any order. *)
Inductive Event :=
| EvCreatePayment (data : SubscriptionData)
| EvWebhook (request : Yookassa.Request)
| EvSuccessfulPayment (message : PaymentHandler.Message)
| EvStart (message : MainMenu.Message).

Definition step (env : Env) (self : Yookassa.Self) (w : World) (ev : Event) : World :=
  match ev with
  | EvCreatePayment data => (Yookassa.create_payment env self data w).2
  | EvWebhook request => (Yookassa.webhook_handler env self request w).2
  | EvSuccessfulPayment message => (PaymentHandler.successful_payment env message w).2
  | EvStart message => (MainMenu.command_main_menu env message w).2
  end.

Definition run_events (env : Env) (self : Yookassa.Self) (evs : list Event)
    (w : World) : World :=
  foldl (step env self) w evs.

End Bot.

(** ** Auxiliary notions for the handlers *)

(** A world after more log records and more external calls. *)
Definition extend_world (ls : list LogRecord) (cs : list ExtCall) (w : World) : World :=
  {| transactions := transactions w; users := users w; fsm_data := fsm_data w;
     log := log w ++ ls; calls := calls w ++ cs |}.

(** No external call was made and neither the users nor the FSM data
    changed. *)
Definition quiet (w w' : World) : Prop :=
  calls w' = calls w /\ users w' = users w /\ fsm_data w' = fsm_data w.

(** ** src/app/bot/routes/main_menu/handler.py, the callback *)
Module MainMenuCallback.

(** [aiogram.types.CallbackQuery], as far as the handler reads it. *)
Record CallbackQuery := {
  from_user : User;
  callback_message_id : Z
}.

(** [callback_main_menu]; [edit_text] stands for
    [callback.message.edit_text], a call to the Bot API. *)
Definition callback_main_menu (env : Env)
    (edit_text : Text -> Keyboard -> M World unit) (callback : CallbackQuery)
  : M World unit :=
  run logger INFO ("User " +:+ pretty (tg_id (from_user callback))
                   +:+ " returned to main menu page.");
  run MainMenu.state_clear;
  run MainMenu.state_update_data "message_id" (callback_message_id callback);
  let is_admin := is_admin env in
  edit_text (MainMenu.prepare_message (from_user callback))
            (MainMenuKeyboard is_admin).

(** An [edit_text] that the Bot API refuses. *)
Definition edit_refused (t : Text) (k : Keyboard) : M World unit :=
  raise (TelegramBadRequest "message is not modified").

Definition sample_callback : CallbackQuery :=
  {| from_user := PaymentHandler.alice; callback_message_id := 777 |}.

End MainMenuCallback.

(** The external call that grants what was paid for in
    [successful_payment]. *)
Definition stars_vpn_call (data : SubscriptionData) : ExtCall :=
  if is_extend data
  then ExtendSubscriptionById (user_id data) (devices data) (duration data)
  else CreateSubscriptionById (user_id data) (devices data) (duration data).

(** A developer's environment in which every call succeeds. *)
Definition dev_env : Env :=
  {| answer_of := fun _ => None;
     vpn_key := vpn_key Yookassa.sample_env;
     sent_message_id := sent_message_id Yookassa.sample_env;
     is_admin := true;
     is_dev := true;
     pack := pack Yookassa.sample_env;
     unpack := unpack Yookassa.sample_env |}.

(** ** Inline keyboards *)

(** [aiogram.types.InlineKeyboardButton], with the two optional fields the
    sources set, and [InlineKeyboardMarkup]. *)
Record InlineKeyboardButton := {
  text : string;
  callback_data : option string;
  url : option string
}.

Record InlineKeyboardMarkup := {
  inline_keyboard : list (list InlineKeyboardButton)
}.

(** [buttons[pos : pos + width] for pos in range(0, len(buttons), width)] *)
Fixpoint chunks {A} (fuel width : nat) (buttons : list A) : list (list A) :=
  match fuel, buttons with
  | _, [] => []
  | O, _ => []
  | S fuel', _ => take width buttons :: chunks fuel' width (drop width buttons)
  end.

(** [InlineKeyboardBuilder.row] with the default width, the builder's
    [max_width] of 8, and [as_markup]. *)
Definition builder_row (buttons : list InlineKeyboardButton)
    (markup : list (list InlineKeyboardButton)) : list (list InlineKeyboardButton) :=
  markup ++ chunks (length buttons) 8 buttons.

Definition as_markup (markup : list (list InlineKeyboardButton)) : InlineKeyboardMarkup :=
  {| inline_keyboard := markup |}.

(** The navigation constants of [app.bot.navigation], which is not among
    the sources. *)
Record Nav := {
  MAIN_MENU : string;
  CLOSE_NOTIFICATION : string;
  HOW_TO_CONNECT : string;
  DOWNLOAD_MAIN : string;
  PLATFORM_IOS : string;
  PLATFORM_ANDROID : string;
  PLATFORM_WINDOWS : string
}.

(** Exactly one of the optional fields of a button is set, as the Bot API
    asks of an inline button; the check does not look at the values. *)
Definition button_ok (b : InlineKeyboardButton) : Prop :=
  (is_Some (callback_data b) /\ url b = None) \/
  (callback_data b = None /\ is_Some (url b)).

(** The shape of a keyboard: rows are not empty and hold at most eight
    buttons, each with exactly one of its optional fields set. *)
Definition markup_ok (m : InlineKeyboardMarkup) : Prop :=
  Forall (fun row => row <> [] /\ (length row <= 8)%nat /\ Forall button_ok row)
         (inline_keyboard m).

(** *** src/app/bot/routes/utils/keyboard.py *)
Module Keyboard.
Section WithTranslations.
(** [gettext] and the navigation constants. *)
Variable gettext : string -> string.
Variable nav : Nav.

Definition close_notification_keyboard : InlineKeyboardMarkup :=
  let builder := [] in
  let builder :=
    builder_row [ {| text := gettext "💥 Close";
                     callback_data := Some (CLOSE_NOTIFICATION nav);
                     url := None |} ] builder in
  as_markup builder.

Definition back_button (callback : string) : InlineKeyboardButton :=
  {| text := gettext "◀️ Back"; callback_data := Some callback; url := None |}.

Definition back_keyboard (callback : string) : InlineKeyboardMarkup :=
  {| inline_keyboard := [[back_button callback]] |}.

Definition back_to_main_menu_button : InlineKeyboardButton :=
  {| text := gettext "◀️ Back to main menu"; callback_data := Some (MAIN_MENU nav);
     url := None |}.

Definition back_to_main_menu_keyboard : InlineKeyboardMarkup :=
  {| inline_keyboard := [[back_to_main_menu_button]] |}.

Definition cancel_button (callback : string) : InlineKeyboardButton :=
  {| text := gettext "◀️ Cancel"; callback_data := Some callback; url := None |}.

Definition cancel_keyboard (callback : string) : InlineKeyboardMarkup :=
  {| inline_keyboard := [[cancel_button callback]] |}.

End WithTranslations.
End Keyboard.

(** *** src/app/bot/keyboards/download.py *)
Module Download.
Section WithTranslations.
Variable gettext : string -> string.
Variable nav : Nav.
(** [back_button] of [app.bot.keyboards.back], which is not among the
    sources. *)
Variable back_button : string -> InlineKeyboardButton.

Definition platforms_keyboard : InlineKeyboardMarkup :=
  let builder := [] in
  let builder :=
    builder_row
      [ {| text := "🍏 IOS"; callback_data := Some (PLATFORM_IOS nav); url := None |};
        {| text := "🤖 Android"; callback_data := Some (PLATFORM_ANDROID nav);
           url := None |};
        {| text := "💻 Windows"; callback_data := Some (PLATFORM_WINDOWS nav);
           url := None |} ] builder in
  let builder := builder_row [back_button (HOW_TO_CONNECT nav)] builder in
  as_markup builder.

Definition APP_STORE : string :=
  "https://apps.apple.com/us/app/hiddify-proxy-vpn/id6596777532".
Definition GOOGLE_PLAY : string :=
  "https://play.google.com/store/apps/details?id=app.hiddify.com".
Definition WINDOWS_SETUP : string :=
  "https://github.com/hiddify/hiddify-next/releases/download/"
  +:+ "v2.5.7/Hiddify-Windows-Setup-x64.exe".

Definition download_keyboard (platform key : string) : InlineKeyboardMarkup :=
  let builder := [] in
  let links :=
    if bool_decide (platform = PLATFORM_IOS nav) then
      (APP_STORE, "hiddify://import/" +:+ key)
    else if bool_decide (platform = PLATFORM_ANDROID nav) then
      (GOOGLE_PLAY, "hiddify://import/" +:+ key)
    else
      (WINDOWS_SETUP, "hiddify://import/" +:+ key) in
  let download := links.1 in
  let connect := links.2 in
  let builder :=
    builder_row
      [ {| text := gettext "📥 Download"; callback_data := None; url := Some download |};
        {| text := gettext "🔌 Connect"; callback_data := None; url := Some connect |} ]
      builder in
  let builder := builder_row [back_button (DOWNLOAD_MAIN nav)] builder in
  as_markup builder.

(** The links a keyboard offers: the [url] of every button, row by row. *)
Definition links_of (m : InlineKeyboardMarkup) : list string :=
  omap url (concat (inline_keyboard m)).

End WithTranslations.

(** Sample constants. *)
Definition sample_nav : Nav :=
  {| MAIN_MENU := "main_menu"; CLOSE_NOTIFICATION := "close_notification";
     HOW_TO_CONNECT := "how_to_connect"; DOWNLOAD_MAIN := "download";
     PLATFORM_IOS := "platform_ios"; PLATFORM_ANDROID := "platform_android";
     PLATFORM_WINDOWS := "platform_windows" |}.

End Download.


(** ** What reaches a log archive *)

(** The line that [logging.info] adds to the handler's own file while the
    archive is being made, if the root logger lets it through. *)
Definition announced (h : Logger.CompressingFileHandler) (archive : string)
  : list string :=
  if Logger.root_emits_info h
  then ["Archiving " +:+ Logger.baseFilename h +:+ " to " +:+ archive]
  else [].
(** * Theorems *)

Ltac unfold_monad :=
  unfold bind, ret, raise, try_except, try_finally, get_state, modify,
    lift_outcome in *; cbv beta in *.

(** ** Relating the state before and after a monadic program *)
Section Preserves.
Context {S : Type} (R : S -> S -> Prop) `{!PreOrder R}.

Lemma preserves_ret {A} (a : A) : preserves R (ret a).
Proof. intros s. cbn. reflexivity. Qed.

Lemma preserves_raise {A} e : preserves R (@raise S A e).
Proof. intros s. cbn. reflexivity. Qed.

Lemma preserves_lift_outcome {A} (o : Outcome A) : preserves R (lift_outcome o).
Proof. intros s. cbn. reflexivity. Qed.

Lemma preserves_get_state : preserves R (@get_state S).
Proof. intros s. cbn. reflexivity. Qed.

Lemma preserves_bind {A B} (m : M S A) (k : A -> M S B) :
  preserves R m -> (forall a, preserves R (k a)) -> preserves R (bind m k).
Proof.
  intros Hm Hk s. unfold bind. specialize (Hm s).
  destruct (m s) as [[a|e] s']; cbn in *; [|done].
  etrans; [exact Hm | apply Hk].
Qed.

Lemma preserves_try_except {A} (body : M S A) handler :
  preserves R body -> (forall e, preserves R (handler e)) ->
  preserves R (try_except body handler).
Proof.
  intros Hm Hk s. unfold try_except. specialize (Hm s).
  destruct (body s) as [[a|e] s']; cbn in *; [done|].
  etrans; [exact Hm | apply Hk].
Qed.

Lemma preserves_try_finally {A} (body : M S A) fin :
  preserves R body -> preserves R fin -> preserves R (try_finally body fin).
Proof.
  intros Hm Hf s. unfold try_finally. specialize (Hm s).
  destruct (body s) as [r s']. specialize (Hf s').
  destruct (fin s') as [[[]|e] s'']; cbn in *; by etrans.
Qed.

Lemma preserves_modify (f : S -> S) :
  (forall s, R s (f s)) -> preserves R (modify f).
Proof. intros Hf s. apply Hf. Qed.

End Preserves.

(** ** Promo codes *)
Section PromocodeFacts.
Import Promocode.

Lemma flush_inserts_raises text news : forall t e,
  flush_inserts text news t = Raised e -> exists k, e = IntegrityError k.
Proof.
  induction news as [|p news IH]; intros t e; cbn; [done|].
  case_bool_decide; [intros [= <-]; eauto | apply IH].
Qed.

Lemma is_clean_spec s : is_clean s = true <-> clean s.
Proof.
  unfold is_clean, clean.
  destruct (pending_new s), (pending_deleted s); split; try done; by intros [? ?].
Qed.

Lemma flush_clean st : clean (session st) -> flush st = (Returned tt, st).
Proof. intros H%is_clean_spec. unfold flush. cbv zeta. by rewrite H. Qed.

(** The three ways a flush can go: nothing to do, the pending work
    written, or an [INSERT] rejected. *)
Lemma flush_cases st :
  (flush st = (Returned tt, st) /\ clean (session st)) \/
  (exists t', flush st = (Returned tt, with_session (flushed t') st)) \/
  (exists k, flush st = (Raised (IntegrityError k), with_session deactivated st)).
Proof.
  unfold flush. cbv zeta.
  destruct (is_clean (session st)) eqn:Hc.
  - left. split; [done|]. by apply is_clean_spec.
  - right. destruct (flush_inserts _ _ _) as [t'|e] eqn:Ef.
    + left. by eexists.
    + right. destruct (flush_inserts_raises _ _ _ _ Ef) as [k ->]. by exists k.
Qed.

(** The autoflush before a query goes the same three ways; a rejected
    [INSERT] is still an [IntegrityError]. *)
Lemma autoflush_cases st :
  (_autoflush st = (Returned tt, st)) \/
  (exists t', _autoflush st = (Returned tt, with_session (flushed t') st)) \/
  (exists k, _autoflush st = (Raised (IntegrityError k), with_session deactivated st)).
Proof.
  unfold _autoflush. unfold_monad.
  destruct (autoflush (session st)); [|by left].
  destruct (flush_cases st) as [[-> _]|[[t' ->]|[k ->]]]; cbn; eauto.
Qed.

Lemma autoflush_clean st : clean (session st) -> _autoflush st = (Returned tt, st).
Proof.
  intros Hc. unfold _autoflush. unfold_monad.
  destruct (autoflush (session st)); [|done].
  by rewrite (flush_clean _ Hc).
Qed.

Lemma execute_select_inactive c st :
  inactive (session st) = true ->
  execute_select c st = (Raised PendingRollbackError, st).
Proof. intros Hi. unfold execute_select. unfold_monad. by rewrite Hi. Qed.

(** With nothing pending the query reads the table and changes nothing,
    whatever the [autoflush] setting. *)
Lemma execute_select_clean c st :
  inactive (session st) = false -> clean (session st) ->
  execute_select c st
    = (scalar_one_or_none (select_where_code c (table (session st))), st).
Proof.
  intros Hi Hc. unfold execute_select. unfold_monad. rewrite Hi.
  by rewrite (autoflush_clean _ Hc).
Qed.

Lemma commit_clean st :
  inactive (session st) = false -> clean (session st) ->
  commit st = (Returned tt, with_session commit_session st).
Proof.
  intros Hi Hc. unfold commit. unfold_monad. rewrite Hi.
  by rewrite (flush_clean _ Hc).
Qed.

(** The query either raises, or returns on a session that still
    works. *)
Lemma execute_select_cases c st :
  (exists e st1, execute_select c st = (Raised e, st1) /\
     (st1 = st \/ clean (session st1) \/ inactive (session st1) = true)) \/
  (exists v st1, execute_select c st = (Returned v, st1) /\
     inactive (session st1) = false).
Proof.
  unfold execute_select. unfold_monad.
  destruct (inactive (session st)) eqn:Hi.
  { left. exists PendingRollbackError, st. auto. }
  destruct (autoflush_cases st) as [->|[[t' ->]|[k ->]]].
  - destruct (scalar_one_or_none _) as [v|e]; [right|left]; eauto 10.
  - destruct (scalar_one_or_none _) as [v|e]; [right|left].
    + by exists v, (with_session (flushed t') st).
    + exists e, (with_session (flushed t') st). split; [done|].
      right. left. by split.
  - left. exists (IntegrityError k), (with_session deactivated st). auto.
Qed.

(** The query leaves alone what [rollback] goes back to, and the log. *)
Lemma execute_select_same_base c st : same_base st (execute_select c st).2.
Proof.
  unfold execute_select. unfold_monad.
  destruct (inactive (session st)); [by split|].
  destruct (autoflush_cases st) as [->|[[t' ->]|[k ->]]].
  - by destruct (scalar_one_or_none _).
  - by destruct (scalar_one_or_none _).
  - by split.
Qed.

(** After the query has returned, the guarded commit of [create] always
    ends on a settled session: committed, or rolled back. *)
Lemma guarded_commit_cases c (v : option Promocode) st1 :
  inactive (session st1) = false ->
  let handler := fun exception =>
    match exception with
    | IntegrityError _ =>
        run rollback;
        run logger_error ("Error occurred while creating promocode " +:+ c +:+ ": "
                          +:+ exc_str exception);
        ret None
    | _ => raise exception
    end in
  let res := try_except (run commit; ret v) handler st1 in
  settled (session res.2) /\ exists r, res.1 = Returned r.
Proof.
  intros Hi handler res. subst res handler.
  unfold commit. unfold_monad. rewrite Hi.
  destruct (flush_cases st1) as [[-> Hc]|[[t' ->]|[k ->]]]; cbn.
  - split; [|by eexists]. by repeat split; try apply Hc.
  - split; [|by eexists]. by repeat split.
  - split; [|by eexists]. by repeat split.
Qed.

(** [create] either raises at the query with the state untouched, or
    ends with nothing pending, or leaves the session inactive. *)
Lemma create_cases c st :
  (exists e, create c st = (Raised e, st)) \/
  clean (session (create c st).2) \/
  inactive (session (create c st).2) = true.
Proof.
  destruct (create c st) as [res st2] eqn:E. cbn [snd]. revert E.
  unfold create. unfold bind at 1.
  destruct (execute_select_cases c st)
    as [(e & st1 & -> & H)|(v & st1 & -> & Hi)].
  - intros [= <- <-]. destruct H as [->|[H|H]]; eauto.
  - intros E. right. left.
    pose proof (guarded_commit_cases c v st1 Hi) as [[H _] _].
    cbv zeta in H. by rewrite E in H.
Qed.

(** On a session with nothing pending, or on an inactive one, [create]
    does not touch the table. *)
Lemma create_clean_table c st :
  clean (session st) \/ inactive (session st) = true ->
  table (session (create c st).2) = table (session st).
Proof.
  intros H. destruct (create c st) as [res st2] eqn:E. cbn [snd]. revert E.
  unfold create. unfold bind at 1.
  destruct (inactive (session st)) eqn:Hi.
  { rewrite execute_select_inactive by done. by intros [= _ <-]. }
  destruct H as [Hc|]; [|done].
  rewrite (execute_select_clean c st Hi Hc).
  destruct (scalar_one_or_none _) as [v|e]; [|by intros [= _ <-]].
  unfold try_except, bind. rewrite (commit_clean st Hi Hc).
  by intros [= _ <-].
Qed.

(** C5. Creating a promo code a second time, with a code the table holds
    after the first call, leaves the stored promo codes as the first call
    left them. *)
Theorem create_idempotent_on_duplicate c st :
  let st1 := (create c st).2 in
  c ∈ code <$> table (session st1) ->
  table (session (create c st1).2) = table (session st1).
Proof.
  intros st1 _. subst st1.
  destruct (create_cases c st) as [[e E]|Hc].
  - rewrite E. cbn [snd]. by rewrite E.
  - by apply create_clean_table.
Qed.

(** C4. When the query of [create] has returned and the commit raises an
    [IntegrityError], the error is caught: the session is rolled back,
    one ERROR record with the text of the exception is logged, and the
    call returns [None]. *)
Theorem create_integrity_error_returns_none c st r k :
  (execute_select c st).1 = Returned r ->
  (commit (execute_select c st).2).1 = Raised (IntegrityError k) ->
  create c st =
    (Returned None,
     {| session := rollback_session (session st);
        log := log st ++
               [ {| levelname := ERROR;
                    message := "Error occurred while creating promocode " +:+ c
                               +:+ ": " +:+ exc_str (IntegrityError k) |} ] |}).
Proof.
  pose proof (execute_select_same_base c st) as [Hs Hl].
  unfold create. unfold bind at 1.
  destruct (execute_select c st) as [[v|e] st1]; cbn [fst snd] in *; [intros _|done].
  unfold try_except, bind at 1.
  unfold commit. unfold_monad.
  destruct (inactive (session st1)); [done|].
  destruct (flush_cases st1) as [[-> _]|[[t' ->]|[k' ->]]]; cbn [fst]; [done|done|].
  intros [= ->]. cbn. by rewrite <- Hs, Hl.
Qed.

Lemma create_integrity_error_returns_none_witness :
  create "XYZ789" st_duplicate_pending =
    (Returned None,
     {| session := rollback_session (session st_duplicate_pending);
        log := [ {| levelname := ERROR;
                    message := "Error occurred while creating promocode XYZ789: (sqlite3.IntegrityError) UNIQUE constraint failed: promocodes.code" |} ] |}).
Proof.
  exact (create_integrity_error_returns_none "XYZ789" st_duplicate_pending None
           (sqlite_text promo_abc) eq_refl eq_refl).
Defined.

(** The case of C4 needs a session made with [autoflush=False]: with
    [autoflush] on, the pending work is flushed by the query, and a
    commit that follows a query that returned does not raise. *)
Lemma commit_after_query_raises c st r e :
  (execute_select c st).1 = Returned r ->
  (commit (execute_select c st).2).1 = Raised e ->
  autoflush (session st) = false.
Proof.
  unfold execute_select, _autoflush. unfold_monad.
  destruct (inactive (session st)) eqn:Hi; [done|].
  destruct (autoflush (session st)); [|done].
  destruct (flush_cases st) as [[-> Hc]|[[t' ->]|[k ->]]]; cbn [fst snd].
  - destruct (scalar_one_or_none _); [intros _|done]. cbn [snd].
    by rewrite (commit_clean st Hi Hc).
  - destruct (scalar_one_or_none _); [intros _|done]. cbn [snd].
    by rewrite commit_clean.
  - done.
Qed.

Lemma create_idempotent_on_duplicate_witness :
  "ABC123" ∈ code <$> table (session (create "ABC123" (open_session sample_table)).2) /\
  table (session (create "ABC123"
                    (create "ABC123" (open_session sample_table)).2).2)
  = [promo_abc; promo_xyz].
Proof.
  split.
  - vm_compute. left.
  - apply (create_idempotent_on_duplicate "ABC123" (open_session sample_table)).
    vm_compute. left.
Defined.

Lemma select_not_present c t :
  c ∉ code <$> t -> select_where_code c t = [].
Proof.
  unfold select_where_code. induction t as [|p t IH]; [done|].
  rewrite fmap_cons, not_elem_of_cons. intros [Hne Hnin].
  rewrite filter_cons_False by congruence. auto.
Qed.

(** Under the unique constraint a present code selects exactly one row,
    and the table splits around it. *)
Lemma select_present c t :
  NoDup (code <$> t) -> c ∈ code <$> t ->
  exists l1 p l2, t = l1 ++ p :: l2 /\ code p = c /\
                  (c ∉ code <$> l1) /\ (c ∉ code <$> l2) /\
                  select_where_code c t = [p].
Proof.
  intros Hnd (p & -> & Hin)%list_elem_of_fmap.
  apply list_elem_of_split in Hin as (l1 & l2 & ->).
  rewrite fmap_app, fmap_cons in Hnd.
  apply NoDup_app in Hnd as (_ & Hdisj & [Hp2 _]%NoDup_cons).
  assert (code p ∉ code <$> l1) as Hp1.
  { intros Hin. apply (Hdisj _ Hin). left. }
  exists l1, p, l2. repeat split; try done.
  unfold select_where_code. rewrite filter_app, filter_cons_True by done.
  fold (select_where_code (code p) l1). fold (select_where_code (code p) l2).
  by rewrite !select_not_present.
Qed.

Lemma flush_deletes_absent p l :
  id p ∉ id <$> l -> flush_deletes [p] l = l.
Proof.
  unfold flush_deletes. induction l as [|q l IH]; [done|].
  rewrite fmap_cons, not_elem_of_cons. intros [Hne Hnin].
  rewrite filter_cons_True; [by rewrite IH|].
  cbn. rewrite list_elem_of_singleton. congruence.
Qed.

(** Under the primary key, deleting an object removes its row only. *)
Lemma flush_deletes_one l1 p l2 :
  NoDup (id <$> (l1 ++ p :: l2)) -> flush_deletes [p] (l1 ++ p :: l2) = l1 ++ l2.
Proof.
  rewrite fmap_app, fmap_cons.
  intros (_ & Hdisj & [Hp2 _]%NoDup_cons)%NoDup_app.
  assert (id p ∉ id <$> l1) as Hp1.
  { intros Hin. apply (Hdisj _ Hin). left. }
  unfold flush_deletes at 1. rewrite filter_app, filter_cons_False.
  - fold (flush_deletes [p] l1). fold (flush_deletes [p] l2).
    by rewrite !flush_deletes_absent.
  - cbn. intros Hn. apply Hn. left.
Qed.

(** C10. On a table that satisfies the schema's constraints, in a freshly
    opened session, [delete] returns [True] exactly when a row with the
    code exists; that row, and no other, leaves the table. Without such a
    row it returns [False] and nothing changes. *)
Theorem delete_returns_true_iff_present c t :
  table_ok t ->
  ((delete c (open_session t)).1 = Returned true <-> c ∈ code <$> t) /\
  (c ∈ code <$> t ->
     exists l1 p l2, t = l1 ++ p :: l2 /\ code p = c /\
       (c ∉ code <$> (l1 ++ l2)) /\
       (delete c (open_session t)).2 = open_session (l1 ++ l2)) /\
  (c ∉ code <$> t ->
     delete c (open_session t) = (Returned false, open_session t)).
Proof.
  intros [Hid Hcode].
  assert (c ∉ code <$> t ->
          delete c (open_session t) = (Returned false, open_session t)) as Habsent.
  { intros Hnin. unfold delete, execute_select, _autoflush, flush. unfold_monad.
    unfold open_session. cbn -[select_where_code].
    by rewrite select_not_present. }
  assert (c ∈ code <$> t ->
          exists l1 p l2, t = l1 ++ p :: l2 /\ code p = c /\
            (c ∉ code <$> (l1 ++ l2)) /\
            delete c (open_session t) = (Returned true, open_session (l1 ++ l2)))
    as Hpresent.
  { intros Hin.
    destruct (select_present c t Hcode Hin) as (l1 & p & l2 & -> & Hp & H1 & H2 & Hsel).
    exists l1, p, l2. repeat split; try done.
    { rewrite fmap_app, elem_of_app. tauto. }
    unfold delete, execute_select, session_delete, commit, _autoflush, flush, with_session.
    unfold_monad. unfold open_session.
    cbn -[flush_deletes select_where_code].
    rewrite Hsel. cbn -[flush_deletes].
    by rewrite flush_deletes_one. }
  split; [|split]; [|intros Hin|done].
  - split.
    + intros Hret. destruct (decide (c ∈ code <$> t)) as [|Hnin]; [done|].
      rewrite (Habsent Hnin) in Hret. done.
    + intros Hin. destruct (Hpresent Hin) as (? & ? & ? & _ & _ & _ & ->). done.
  - destruct (Hpresent Hin) as (l1 & p & l2 & ? & ? & ? & Hd).
    exists l1, p, l2. by rewrite Hd.
Qed.

Lemma delete_returns_true_iff_present_witness :
  table_ok sample_table /\
  ((delete "ABC123" (open_session sample_table)).1 = Returned true
     <-> "ABC123" ∈ code <$> sample_table).
Proof.
  assert (table_ok sample_table) as Hok.
  { refine (bool_decide_unpack _ _). vm_compute. exact I. }
  split; [exact Hok|].
  exact (proj1 (delete_returns_true_iff_present "ABC123" sample_table Hok)).
Defined.

Example delete_present :
  delete "ABC123" (open_session sample_table)
    = (Returned true, open_session [promo_xyz]).
Proof. vm_compute. reflexivity. Qed.

Example delete_absent :
  delete "NOPE" (open_session sample_table)
    = (Returned false, open_session sample_table).
Proof. vm_compute. reflexivity. Qed.

End PromocodeFacts.

(** ** Handlers and the transactions table *)

Global Instance same_transactions_preorder : PreOrder same_transactions.
Proof.
  split; [by intros w | intros w1 w2 w3; unfold same_transactions; congruence].
Qed.

Lemma logger_same l msg : preserves same_transactions (logger l msg).
Proof. by intros w. Qed.

Lemma call_same env c : preserves same_transactions (call env c).
Proof. by intros w. Qed.

Lemma get_by_id_preserves R `{!PreOrder R} pid :
  preserves R (TransactionModel.get_by_id pid).
Proof. intros w. cbn. reflexivity. Qed.

Lemma User_get_preserves R `{!PreOrder R} uid : preserves R (User_get uid).
Proof. intros w. cbn. reflexivity. Qed.

(** One step through a monadic program, for any preorder on worlds. *)
Ltac preserves_step :=
  first
    [ apply get_by_id_preserves; apply _
    | apply User_get_preserves; apply _
    | apply preserves_ret; apply _
    | apply preserves_raise; apply _
    | apply preserves_lift_outcome; apply _
    | apply preserves_get_state; apply _
    | apply preserves_try_finally; [apply _| | ]
    | apply preserves_try_except; [apply _| |intros ?]
    | apply preserves_bind; [apply _| |intros ?] ].

(** ** The YooKassa webhook *)
Section YookassaFacts.
Import Yookassa.

(** C1. A request whose source address the trust check rejects is
    answered with 403, and the world (the transactions table included) is
    left as it was. *)
Theorem webhook_untrusted_ip_403 env self request w :
  is_ip_trusted self (source_ip request) = Returned false ->
  webhook_handler env self request w = (Returned {| status_code := 403 |}, w).
Proof.
  intros Hip. unfold webhook_handler. unfold_monad. by rewrite Hip.
Qed.

Lemma webhook_untrusted_ip_403_witness :
  let request := sample_request "203.0.113.9"
                   (Returned (notification_json PAYMENT_SUCCEEDED "pay-1")) in
  is_ip_trusted sample_self (source_ip request) = Returned false /\
  webhook_handler sample_env sample_self request empty_world
    = (Returned {| status_code := 403 |}, empty_world).
Proof.
  intros request. split; [vm_compute; reflexivity|].
  apply webhook_untrusted_ip_403. vm_compute. reflexivity.
Defined.

(** The fallback of the header lookup: without [X-Forwarded-For] the
    remote address is checked. *)
Example source_ip_falls_back_to_remote :
  source_ip {| headers := ∅; remote := Some "10.0.0.1"; json := Raised JSONDecodeError |}
    = Some "10.0.0.1".
Proof. reflexivity. Qed.

(** A succeeded notification for a payment the table does not hold: the
    handler raises inside the [try] block and the answer is 400. *)
Example webhook_unknown_payment :
  (webhook_handler sample_env sample_self
     (sample_request "185.71.76.1"
        (Returned (notification_json PAYMENT_SUCCEEDED "pay-unknown")))
     empty_world).1
  = Returned {| status_code := 400 |}.
Proof. vm_compute. reflexivity. Qed.

(** C2, as stated, fails: a trusted, well-formed succeeded notification
    is answered with 400 when its handler raises, here because the table
    holds no transaction with the notified payment identifier. *)
Lemma webhook_succeeded_event_can_answer_400 :
  ~ (forall env self request w j n,
       is_ip_trusted self (source_ip request) = Returned true ->
       json request = Returned j ->
       WebhookNotificationFactory_create self j = Returned n ->
       (event n = PAYMENT_SUCCEEDED \/ event n = PAYMENT_CANCELED ->
        (webhook_handler env self request w).1 = Returned {| status_code := 200 |}) /\
       (event n <> PAYMENT_SUCCEEDED -> event n <> PAYMENT_CANCELED ->
        (webhook_handler env self request w).1 = Returned {| status_code := 400 |})).
Proof.
  intros H.
  destruct (H sample_env sample_self
              (sample_request "185.71.76.1"
                 (Returned (notification_json PAYMENT_SUCCEEDED "pay-unknown")))
              empty_world
              (notification_json PAYMENT_SUCCEEDED "pay-unknown")
              {| event := PAYMENT_SUCCEEDED; object_id := "pay-unknown" |}
              eq_refl eq_refl eq_refl) as [H200 _].
  specialize (H200 (or_introl eq_refl)).
  vm_compute in H200. discriminate H200.
Qed.

(** C2, amended. For a trusted request whose body the factory turns into
    a notification: a succeeded or canceled event whose handler returns
    is answered with 200, in the world the handler left; any other event
    is answered with 400 and changes nothing. *)
Theorem webhook_status_by_event env self request w j n :
  is_ip_trusted self (source_ip request) = Returned true ->
  json request = Returned j ->
  WebhookNotificationFactory_create self j = Returned n ->
  (event n = PAYMENT_SUCCEEDED ->
   forall w', handle_payment_succeeded env (object_id n) w = (Returned tt, w') ->
     webhook_handler env self request w = (Returned {| status_code := 200 |}, w')) /\
  (event n = PAYMENT_CANCELED ->
   forall w', handle_payment_canceled env (object_id n) w = (Returned tt, w') ->
     webhook_handler env self request w = (Returned {| status_code := 200 |}, w')) /\
  (event n <> PAYMENT_SUCCEEDED -> event n <> PAYMENT_CANCELED ->
   webhook_handler env self request w = (Returned {| status_code := 400 |}, w)).
Proof.
  intros Hip Hjson Hn.
  unfold webhook_handler, process_event. unfold_monad.
  rewrite Hip, Hjson, Hn. cbn [negb].
  split; [|split].
  - intros Hev w' Hh. rewrite bool_decide_eq_true_2 by done. by rewrite Hh.
  - intros Hev w' Hh.
    rewrite bool_decide_eq_false_2 by (rewrite Hev; done).
    rewrite bool_decide_eq_true_2 by done. by rewrite Hh.
  - intros Hs Hc. by rewrite !bool_decide_eq_false_2.
Qed.

Lemma webhook_status_by_event_witness :
  let request := sample_request "185.71.76.1"
                   (Returned (notification_json PAYMENT_CANCELED "pay-1")) in
  let w := (create_payment sample_env sample_self sample_data empty_world).2 in
  let w' := (handle_payment_canceled sample_env "pay-1" w).2 in
  webhook_handler sample_env sample_self request w
    = (Returned {| status_code := 200 |}, w').
Proof.
  intros request w w'.
  refine (proj1 (proj2 (webhook_status_by_event sample_env sample_self request w
            (notification_json PAYMENT_CANCELED "pay-1")
            {| event := PAYMENT_CANCELED; object_id := "pay-1" |}
            _ _ _)) _ w' _).
  all: vm_compute; reflexivity.
Defined.

(** C3, as stated, fails: [request.json()] is awaited before the [try]
    block, so a body that is not JSON raises out of the handler. *)
Lemma webhook_json_error_propagates :
  ~ (forall env self request w,
       is_ip_trusted self (source_ip request) = Returned true ->
       exists resp w', webhook_handler env self request w = (Returned resp, w')).
Proof.
  intros H.
  destruct (H sample_env sample_self
              (sample_request "185.71.76.1" (Raised JSONDecodeError))
              empty_world eq_refl) as (resp & w' & Hr).
  vm_compute in Hr. discriminate Hr.
Qed.

Lemma process_event_status env self j w resp w' :
  process_event env self j w = (Returned resp, w') ->
  status_code resp = 200 \/ status_code resp = 400.
Proof.
  unfold process_event. unfold_monad.
  destruct (WebhookNotificationFactory_create self j) as [n|e]; [|done].
  case_bool_decide.
  { destruct (handle_payment_succeeded _ _ _) as [[[]|e] w1]; [|done].
    intros [= <- _]. by left. }
  case_bool_decide.
  { destruct (handle_payment_canceled _ _ _) as [[[]|e] w1]; [|done].
    intros [= <- _]. by left. }
  intros [= <- _]. by right.
Qed.

(** C3, amended. Once the body of a trusted request has been decoded,
    the handler always returns a response, 200 or 400, and an exception
    raised while building the notification or handling the event is
    logged and answered with 400. *)
Theorem webhook_catches_processing_errors env self request w j :
  is_ip_trusted self (source_ip request) = Returned true ->
  json request = Returned j ->
  (exists resp w',
     webhook_handler env self request w = (Returned resp, w') /\
     (status_code resp = 200 \/ status_code resp = 400)) /\
  (forall e w1,
     process_event env self j w = (Raised e, w1) ->
     webhook_handler env self request w =
       (Returned {| status_code := 400 |},
        add_log {| levelname := ERROR;
                   message := "Error processing YooKassa webhook: " +:+ exc_str e |}
                w1)).
Proof.
  intros Hip Hjson.
  unfold webhook_handler. unfold_monad. rewrite Hip, Hjson. cbn [negb].
  split.
  - destruct (process_event env self j w) as [[resp|e] w1] eqn:Hp.
    + exists resp, w1. split; [done|]. eapply process_event_status, Hp.
    + eexists _, _. split; [reflexivity|]. by right.
  - intros e w1 ->. reflexivity.
Qed.

Lemma webhook_catches_processing_errors_witness :
  let request := sample_request "185.71.76.1" (Returned (JString "not a dict")) in
  webhook_handler sample_env sample_self request empty_world =
    (Returned {| status_code := 400 |},
     add_log {| levelname := ERROR;
                message := "Error processing YooKassa webhook: Parameter 'data' should be a dict" |}
             empty_world).
Proof.
  intros request.
  refine (proj2 (webhook_catches_processing_errors sample_env sample_self request
            empty_world (JString "not a dict") _ _)
            (TypeError "Parameter 'data' should be a dict") empty_world _).
  all: vm_compute; reflexivity.
Defined.

(** *** The life of a transaction row *)

Lemma succeeded_locale_block_same env user data :
  preserves same_transactions (succeeded_locale_block env user data).
Proof.
  unfold succeeded_locale_block. cbv zeta. destruct (is_extend data);
    repeat first [ apply logger_same | apply call_same | preserves_step ].
Qed.

Lemma get_by_id_fst pid w :
  (TransactionModel.get_by_id pid w).1
    = Returned (head (filter (fun t => payment_id t = pid) (transactions w))).
Proof. reflexivity. Qed.

Lemma payment_id_set_status_where pid v t :
  payment_id (TransactionModel.set_status_where pid v t) = payment_id t.
Proof. unfold TransactionModel.set_status_where. by case_bool_decide. Qed.

Lemma update_then_get ts pid v row :
  head (filter (fun t => payment_id t = pid) ts) = Some row ->
  head (filter (fun t => payment_id t = pid) (TransactionModel.set_status_where pid v <$> ts))
    = Some (with_status v row).
Proof.
  induction ts as [|a ts IH]; [done|]. rewrite fmap_cons.
  destruct (decide (payment_id a = pid)) as [Heq|Hne].
  - rewrite !filter_cons_True by by rewrite ?payment_id_set_status_where.
    intros [= ->]. cbn. unfold TransactionModel.set_status_where.
    by rewrite bool_decide_eq_true_2.
  - rewrite !filter_cons_False by by rewrite ?payment_id_set_status_where.
    apply IH.
Qed.

Lemma handle_payment_succeeded_transactions env pid w row data :
  (TransactionModel.get_by_id pid w).1 = Returned (Some row) ->
  unpack env (subscription row) = Returned data ->
  transactions (handle_payment_succeeded env pid w).2
    = TransactionModel.set_status_where pid (StatusEnum COMPLETED) <$> transactions w.
Proof.
  intros Hget Hunpack. cbn in Hget. injection Hget as Hget.
  unfold handle_payment_succeeded, succeeded_session_block,
    TransactionModel.get_by_id, TransactionModel.update, User_get, logger.
  unfold_monad. cbn -[succeeded_locale_block filter].
  rewrite Hget. cbn -[succeeded_locale_block filter]. rewrite Hunpack.
  rewrite succeeded_locale_block_same. reflexivity.
Qed.

Lemma handle_payment_canceled_transactions env pid w row data :
  (TransactionModel.get_by_id pid w).1 = Returned (Some row) ->
  unpack env (subscription row) = Returned data ->
  transactions (handle_payment_canceled env pid w).2
    = TransactionModel.set_status_where pid (StatusEnum CANCELED) <$> transactions w.
Proof.
  intros Hget Hunpack. cbn in Hget. injection Hget as Hget.
  unfold handle_payment_canceled,
    TransactionModel.get_by_id, TransactionModel.update, User_get, logger.
  unfold_monad. cbn -[filter].
  rewrite Hget. cbn -[filter]. rewrite Hunpack. reflexivity.
Qed.

Lemma webhook_handler_transactions env self request w j n row data :
  is_ip_trusted self (source_ip request) = Returned true ->
  json request = Returned j ->
  WebhookNotificationFactory_create self j = Returned n ->
  (TransactionModel.get_by_id (object_id n) w).1 = Returned (Some row) ->
  unpack env (subscription row) = Returned data ->
  (event n = PAYMENT_SUCCEEDED ->
   transactions (webhook_handler env self request w).2
     = TransactionModel.set_status_where (object_id n) (StatusEnum COMPLETED) <$> transactions w) /\
  (event n = PAYMENT_CANCELED ->
   transactions (webhook_handler env self request w).2
     = TransactionModel.set_status_where (object_id n) (StatusEnum CANCELED) <$> transactions w).
Proof.
  intros Hip Hjson Hn Hget Hunpack.
  pose proof (handle_payment_succeeded_transactions env _ w row data Hget Hunpack) as Hs.
  pose proof (handle_payment_canceled_transactions env _ w row data Hget Hunpack) as Hc.
  unfold webhook_handler, process_event. unfold_monad.
  rewrite Hip, Hjson, Hn. cbn [negb].
  split; intros Hev.
  - rewrite bool_decide_eq_true_2 by done.
    destruct (handle_payment_succeeded env (object_id n) w) as [[[]|e] w1];
      cbn in *; done.
  - rewrite bool_decide_eq_false_2 by (rewrite Hev; done).
    rewrite bool_decide_eq_true_2 by done.
    destruct (handle_payment_canceled env (object_id n) w) as [[[]|e] w1];
      cbn in *; done.
Qed.

End YookassaFacts.

(** ** The admin restart action *)
Section RestartFacts.
Import Restart.

(** C9. With [HOSTNAME] set to a non-empty value the handler runs
    [docker restart <HOSTNAME>]; otherwise it re-executes the interpreter
    with the interpreter and the original arguments; in either case it
    takes exactly one of the two actions. *)
Theorem restart_takes_exactly_one_branch proc uid st :
  let st' := (callback_restart_bot proc uid st).2 in
  (forall name, getenv proc "HOSTNAME" = Some name -> name <> "" ->
     actions st' = actions st ++ [System ("docker restart " +:+ name)]) /\
  (getenv proc "HOSTNAME" = None \/ getenv proc "HOSTNAME" = Some "" ->
     actions st' = actions st
                   ++ [Execv (executable proc) (executable proc :: argv proc)]) /\
  (exists a, actions st' = actions st ++ [a] /\
     (a = Execv (executable proc) (executable proc :: argv proc) \/
      exists name, a = System ("docker restart " +:+ name))).
Proof.
  unfold callback_restart_bot, logger_info, os_action. unfold_monad. cbn.
  destruct (getenv proc "HOSTNAME") as [name|] eqn:Hname; cbn.
  - destruct (String.eqb_spec name "") as [->|Hne]; cbn.
    + split; [by intros ? [= <-] ?|]. split; [done|]. eauto.
    + split; [by intros ? [= <-] _|]. split; [|eauto].
      intros [|[= ->]]; done.
  - split; [done|]. split; [done|]. eauto.
Qed.

Lemma restart_takes_exactly_one_branch_witness :
  getenv in_container "HOSTNAME" = Some "3xui-shop-bot" /\
  actions (callback_restart_bot in_container 7 idle).2
    = [System "docker restart 3xui-shop-bot"].
Proof.
  split; [vm_compute; reflexivity|].
  refine (proj1 (restart_takes_exactly_one_branch in_container 7 idle)
            "3xui-shop-bot" _ _); [vm_compute; reflexivity | discriminate].
Defined.

Example restart_on_host :
  actions (callback_restart_bot on_host 7 idle).2
    = [Execv "/usr/bin/python3" ["/usr/bin/python3"; "app/__main__.py"]].
Proof. vm_compute. reflexivity. Qed.

End RestartFacts.

(** ** Deleting a tracked message *)
Section DeletionFacts.
Import PaymentHandler.

(** X12. In the /start handler a failed deletion is logged as a warning and
    swallowed: the FSM data is cleared, the menu is sent, its identifier
    is stored and the command message is deleted. *)
Lemma command_main_menu_swallows_delete_failure env message w previous e :
  fsm_data w !! "message_id" = Some previous ->
  previous <> 0 ->
  answer_of env (DeleteMessage (MainMenu.chat_id message) previous) = Some e ->
  answer_of env (MessageAnswer (MainMenu.prepare_message (MainMenu.from_user message))
                               (MainMenuKeyboard (is_admin env))) = None ->
  answer_of env (MessageDelete (MainMenu.chat_id message) (MainMenu.msg_id message))
    = None ->
  let '(r, w') := MainMenu.command_main_menu env message w in
  r = Returned tt /\
  filter (fun r => is_warning r = true) (log w')
    = filter (fun r => is_warning r = true) (log w)
      ++ [ {| levelname := WARNING;
              message := "Couldn't delete message with ID " +:+ pretty previous
                         +:+ ": " +:+ exc_str e |} ] /\
  fsm_data w' = {[ "message_id" := sent_message_id env ]} /\
  calls w' = calls w ++
    [ DeleteMessage (MainMenu.chat_id message) previous;
      MessageAnswer (MainMenu.prepare_message (MainMenu.from_user message))
                    (MainMenuKeyboard (is_admin env));
      MessageDelete (MainMenu.chat_id message) (MainMenu.msg_id message) ].
Proof.
  intros Hprev Hnz Hdel Hans Hmd.
  unfold MainMenu.command_main_menu, MainMenu.state_get_value,
    MainMenu.state_clear, MainMenu.state_update_data, logger, call.
  unfold_monad. cbn -[filter pretty].
  rewrite Hprev. cbn -[filter pretty].
  destruct (Z.eqb_spec previous 0) as [|_]; [done|]. cbn -[filter pretty].
  rewrite Hdel. cbn -[filter pretty]. rewrite Hans, Hmd.
  unfold add_call, add_log, set_fsm_data. cbn [log calls fsm_data].
  repeat split.
  - rewrite !filter_app. cbn. by rewrite app_nil_r.
  - by rewrite <- !app_assoc.
Qed.

Lemma command_main_menu_swallows_delete_failure_witness :
  let '(r, w') := MainMenu.command_main_menu delete_fails menu_message world_with_menu in
  r = Returned tt /\
  filter (fun r => is_warning r = true) (log w')
    = [ {| levelname := WARNING;
           message := "Couldn't delete message with ID 900: Telegram server says - Bad Request: message to delete not found" |} ] /\
  fsm_data w' = {[ "message_id" := 901 ]} /\
  calls w' = [ DeleteMessage 42 900;
               MessageAnswer (WelcomeText "Alice") (MainMenuKeyboard false);
               MessageDelete 42 950 ].
Proof.
  apply (command_main_menu_swallows_delete_failure delete_fails menu_message
           world_with_menu 900
           (TelegramBadRequest "message to delete not found"));
    [vm_compute; reflexivity | lia | reflexivity | reflexivity | reflexivity].
Defined.

(** C8, at the input where it fails. In [successful_payment] the handler
    of the failed deletion reads [data.message_idd], an attribute that
    [SubscriptionData] does not have: the [AttributeError] leaves the
    handler, no warning is logged, and neither the subscription nor the
    transaction is created. *)
Theorem successful_payment_aborts_when_delete_fails :
  successful_payment delete_fails stars_message Yookassa.empty_world =
    (Raised (AttributeError "SubscriptionData" "message_idd"),
     {| transactions := []; users := []; fsm_data := ∅;
        log := [ {| levelname := INFO;
                    message := "Payment successful for user 42" |};
                 {| levelname := DEBUG;
                    message := "Subscription data unpacked: subscription:pay_yookassa:42:2:30" |} ];
        calls := [ DeleteMessage 42 900 ] |}).
Proof. vm_compute. reflexivity. Qed.

(** The same message when the deletion succeeds: the handler completes. *)
Example successful_payment_completes :
  let '(r, w') := successful_payment Yookassa.sample_env stars_message
                    Yookassa.empty_world in
  r = Returned tt /\
  calls w' = [ DeleteMessage 42 900; CreateSubscriptionById 42 2 30; GetKeyById 42;
               MessageAnswer (PaymentKeyText "vless://key") PaymentSuccessKeyboard ] /\
  status <$> transactions w' = [StatusStr "success"].
Proof. vm_compute. done. Qed.

End DeletionFacts.

(** ** Log rotation *)
Section LoggerFacts.
Import Logger.

(** What [setup_logging] fixes: rotation at midnight, every day, seven
    backups, the configured archive format, a file named after the day
    the bot started. *)
Lemma setup_logging_handler config today fs h fs' :
  setup_logging config today fs = (Returned h, fs') ->
  baseFilename h = DIR config +:+ "/" +:+ today +:+ ".log" /\
  when_ h = "midnight" /\ interval h = 1 /\ backupCount h = 7%nat /\
  archive_format h = ARCHIVE_FORMAT config /\
  (archive_format h = "zip" \/ archive_format h = "gz").
Proof.
  unfold setup_logging, open_append. unfold_monad.
  destruct (bool_decide (ARCHIVE_FORMAT config = "zip")) eqn:Hz;
    [|destruct (bool_decide (ARCHIVE_FORMAT config = "gz")) eqn:Hg];
    cbn [orb]; [| |done].
  - intros [= <- _]. cbn. apply bool_decide_eq_true_1 in Hz. auto 10.
  - intros [= <- _]. cbn. apply bool_decide_eq_true_1 in Hg. auto 10.
Qed.

Example setup_logging_zip :
  (setup_logging zip_config "2025-01-01" ∅).1 = Returned zip_handler.
Proof. vm_compute. reflexivity. Qed.

(** X23. Whenever a rollover returns, whatever the handler's settings, no
    file is left under the handler's own name: the file it writes to has
    been unlinked. *)
Lemma doRollover_removes_base h stamp fs fs' :
  doRollover h stamp fs = (Returned tt, fs') ->
  fs' !! baseFilename h = None.
Proof.
  unfold doRollover, rotation_filename. unfold_monad.
  destruct (TimedRotatingFileHandler_doRollover h stamp fs) as [[[]|e] fs1]; [|done].
  match goal with
  | |- context [match ?m fs1 with _ => _ end] => destruct (m fs1) as [[[]|e] fs2]
  end; [|done].
  unfold os_remove. destruct (fs2 !! baseFilename h) eqn:Hb; [|done].
  intros [= <-]. apply lookup_delete_eq.
Qed.

Lemma doRollover_removes_base_witness :
  doRollover gz_handler "2025-01-01" disk_after_day_one
    = (Returned tt, (doRollover gz_handler "2025-01-01" disk_after_day_one).2) /\
  (doRollover gz_handler "2025-01-01" disk_after_day_one).2 !! "logs/2025-01-01.log"
    = None.
Proof.
  assert (doRollover gz_handler "2025-01-01" disk_after_day_one
          = (Returned tt, (doRollover gz_handler "2025-01-01" disk_after_day_one).2))
    as Hrun by (vm_compute; reflexivity).
  split; [exact Hrun|].
  exact (doRollover_removes_base gz_handler "2025-01-01" disk_after_day_one _ Hrun).
Defined.

(** C7, at the input where it fails. At the first midnight the file of
    the day that ended is renamed to [<name>.2025-01-01] and stays as it
    is, uncompressed; what is archived is the log file just reopened,
    holding only the line that announces the archiving, and that file is
    then removed. *)
Theorem doRollover_archives_the_reopened_file :
  doRollover zip_handler "2025-01-01" disk_after_day_one =
    (Returned tt,
     {[ "logs/2025-01-01.log.2025-01-01" := TextFile day_one;
        "logs/2025-01-01.log.zip" :=
          ZipArchive "2025-01-01.log"
            ["Archiving logs/2025-01-01.log to logs/2025-01-01.log.zip"] ]}).
Proof. vm_compute. reflexivity. Qed.

(** The same with "gz" and a root logger above INFO: the archive is
    empty. *)
Example doRollover_gz :
  doRollover gz_handler "2025-01-01" disk_after_day_one =
    (Returned tt,
     {[ "logs/2025-01-01.log.2025-01-01" := TextFile day_one;
        "logs/2025-01-01.log.gz" := GzArchive [] ]}).
Proof. vm_compute. reflexivity. Qed.

(** The base class keeps the seven newest rotated files. *)
Example doRollover_prunes_backups :
  dom (doRollover zip_handler "2025-01-09" disk_with_backups).2 =
    {[ "logs/2025-01-01.log.2025-01-03"; "logs/2025-01-01.log.2025-01-04";
       "logs/2025-01-01.log.2025-01-05"; "logs/2025-01-01.log.2025-01-06";
       "logs/2025-01-01.log.2025-01-07"; "logs/2025-01-01.log.2025-01-08";
       "logs/2025-01-01.log.2025-01-09"; "logs/2025-01-01.log.zip" ]}.
Proof. vm_compute. reflexivity. Qed.

End LoggerFacts.

(** ** The status of a gateway row *)
Section RowInvariant.
Import Yookassa.
Variable pid : string.

#[local] Instance keeps_row_preorder : PreOrder (keeps_row pid).
Proof. split; [intros w | intros w1 w2 w3]; unfold keeps_row; tauto. Qed.

Lemma enumerated_enum s : enumerated (StatusEnum s).
Proof. unfold enumerated. destruct s; set_solver. Qed.

Lemma same_keeps_row {A} (m : M World A) :
  preserves same_transactions m -> preserves (keeps_row pid) m.
Proof.
  intros Hm w (row & Hrow & Hen). exists row. split; [|done].
  rewrite get_by_id_fst in *. by rewrite (Hm w).
Qed.

Lemma head_filter_set_status ts pid' v :
  head (filter (fun t => payment_id t = pid)
          (TransactionModel.set_status_where pid' v <$> ts))
  = TransactionModel.set_status_where pid' v
      <$> head (filter (fun t => payment_id t = pid) ts).
Proof.
  induction ts as [|a ts IH]; [done|]. rewrite fmap_cons.
  destruct (decide (payment_id a = pid)) as [Heq|Hne].
  - by rewrite !filter_cons_True by by rewrite ?payment_id_set_status_where.
  - by rewrite !filter_cons_False by by rewrite ?payment_id_set_status_where.
Qed.

Lemma update_keeps_row pid' v :
  enumerated v -> preserves (keeps_row pid) (TransactionModel.update pid' v).
Proof.
  intros Hv w (row & Hrow & Hen). rewrite get_by_id_fst in Hrow.
  injection Hrow as Hrow.
  exists (TransactionModel.set_status_where pid' v row). split.
  - rewrite get_by_id_fst. f_equal. cbn [transactions].
    change (transactions (TransactionModel.update pid' v w).2)
      with (TransactionModel.set_status_where pid' v <$> transactions w).
    by rewrite head_filter_set_status, Hrow.
  - unfold TransactionModel.set_status_where. by case_bool_decide.
Qed.

(** A new row never displaces a stored one, whatever status it brings. *)
Lemma create_keeps_row user sub pid' v :
  preserves (keeps_row pid) (TransactionModel.create user sub pid' v).
Proof.
  intros w (row & Hrow & Hen). exists row. split; [|done].
  rewrite get_by_id_fst in *. injection Hrow as Hrow. f_equal.
  unfold TransactionModel.create. unfold_monad.
  case_bool_decide; [done|]. cbn.
  rewrite filter_app.
  destruct (filter (fun t => payment_id t = pid) (transactions w)); [done|].
  done.
Qed.

Ltac keeps_row_step :=
  first
    [ apply same_keeps_row, logger_same
    | apply same_keeps_row, call_same
    | apply same_keeps_row, succeeded_locale_block_same
    | apply update_keeps_row, enumerated_enum
    | apply create_keeps_row
    | preserves_step ].

Lemma create_payment_keeps_row env self data :
  preserves (keeps_row pid) (create_payment env self data).
Proof. unfold create_payment. cbv zeta. repeat keeps_row_step. Qed.

Lemma webhook_handler_keeps_row env self request :
  preserves (keeps_row pid) (webhook_handler env self request).
Proof.
  unfold webhook_handler, process_event. cbv zeta.
  apply preserves_bind; [apply _|preserves_step|intros trusted].
  destruct trusted; cbn [negb]; [|preserves_step].
  apply preserves_bind; [apply _|preserves_step|intros j].
  apply preserves_try_except; [apply _| |intros e].
  - apply preserves_bind; [apply _|preserves_step|intros n].
    unfold handle_payment_succeeded, succeeded_session_block,
      handle_payment_canceled.
    repeat case_bool_decide; repeat keeps_row_step.
  - repeat keeps_row_step.
Qed.

Lemma successful_payment_keeps_row env message :
  preserves (keeps_row pid) (PaymentHandler.successful_payment env message).
Proof.
  unfold PaymentHandler.successful_payment. cbv zeta.
  apply preserves_bind; [apply _|keeps_row_step|intros _].
  apply preserves_bind; [apply _|keeps_row_step|intros data].
  destruct (is_dev env), (is_extend data); repeat keeps_row_step.
Qed.

Lemma command_main_menu_same env message :
  preserves same_transactions (MainMenu.command_main_menu env message).
Proof.
  unfold MainMenu.command_main_menu, MainMenu.state_get_value. cbv zeta.
  apply preserves_bind; [apply _|apply logger_same|intros _].
  apply preserves_bind; [apply _|repeat preserves_step|intros previous].
  destruct (MainMenu.truthy previous);
    repeat first [ apply logger_same | apply call_same
                 | by apply preserves_modify | preserves_step ].
Qed.

Lemma run_events_keeps_row env self evs : forall w,
  row_enumerated pid w -> row_enumerated pid (Bot.run_events env self evs w).
Proof.
  induction evs as [|ev evs IH]; intros w Hw; [done|].
  apply (IH (Bot.step env self w ev)).
  destruct ev as [data|request|paid|start].
  - by apply (create_payment_keeps_row env self data w).
  - by apply (webhook_handler_keeps_row env self request w).
  - by apply (successful_payment_keeps_row env paid w).
  - by apply (same_keeps_row _ (command_main_menu_same env start) w).
Qed.

End RowInvariant.

Section GatewayLifecycle.
Import Yookassa.

Lemma filter_payment_id_absent pid ts :
  pid ∉ payment_id <$> ts -> filter (fun t => payment_id t = pid) ts = [].
Proof.
  induction ts as [|a ts IH]; [done|].
  rewrite fmap_cons, not_elem_of_cons. intros [Hne Hnin].
  rewrite filter_cons_False by congruence. auto.
Qed.

Lemma create_payment_transactions env self w data name resp :
  get_me_username self = Returned name ->
  Payment_create self (build_request self data name) = Returned resp ->
  id resp ∉ payment_id <$> transactions w ->
  transactions (create_payment env self data w).2
    = transactions w ++
      [ {| tx_user := user_id data; subscription := pack env data;
           payment_id := id resp; status := StatusEnum PENDING |} ].
Proof.
  intros Hme Hpay Hfresh.
  unfold create_payment, TransactionModel.create, logger. unfold_monad.
  rewrite Hme, Hpay. by rewrite bool_decide_eq_false_2.
Qed.

(** C6. A row that [create_payment] adds is keyed by the identifier the
    gateway issued and starts as PENDING; a succeeded notification for a
    stored payment identifier leaves its row COMPLETED and a canceled one
    leaves it CANCELED; and whatever reaches the bot afterwards, the row
    of a created payment holds one of the three enumerated values. *)
Theorem yookassa_transaction_lifecycle env self :
  (forall w data name resp,
     get_me_username self = Returned name ->
     Payment_create self (build_request self data name) = Returned resp ->
     id resp ∉ payment_id <$> transactions w ->
     transactions (create_payment env self data w).2
       = transactions w ++
         [ {| tx_user := user_id data; subscription := pack env data;
              payment_id := id resp; status := StatusEnum PENDING |} ]) /\
  (forall w request j n row data,
     is_ip_trusted self (source_ip request) = Returned true ->
     json request = Returned j ->
     WebhookNotificationFactory_create self j = Returned n ->
     (TransactionModel.get_by_id (object_id n) w).1 = Returned (Some row) ->
     unpack env (subscription row) = Returned data ->
     (event n = PAYMENT_SUCCEEDED ->
      (TransactionModel.get_by_id (object_id n)
         (webhook_handler env self request w).2).1
        = Returned (Some (with_status (StatusEnum COMPLETED) row))) /\
     (event n = PAYMENT_CANCELED ->
      (TransactionModel.get_by_id (object_id n)
         (webhook_handler env self request w).2).1
        = Returned (Some (with_status (StatusEnum CANCELED) row)))) /\
  (forall w data name resp evs,
     get_me_username self = Returned name ->
     Payment_create self (build_request self data name) = Returned resp ->
     id resp ∉ payment_id <$> transactions w ->
     row_enumerated (id resp)
       (Bot.run_events env self evs (create_payment env self data w).2)).
Proof.
  split; [|split].
  - intros w data name resp. apply create_payment_transactions.
  - intros w request j n row data Hip Hjson Hn Hget Hunpack.
    destruct (webhook_handler_transactions env self request w j n row data
                Hip Hjson Hn Hget Hunpack) as [Hs Hc].
    rewrite get_by_id_fst in Hget. injection Hget as Hget.
    split; intros Hev; rewrite get_by_id_fst; f_equal.
    + rewrite (Hs Hev). by apply update_then_get.
    + rewrite (Hc Hev). by apply update_then_get.
  - intros w data name resp evs Hme Hpay Hfresh.
    apply run_events_keeps_row.
    exists {| tx_user := user_id data; subscription := pack env data;
              payment_id := id resp; status := StatusEnum PENDING |}.
    split; [|apply (enumerated_enum PENDING)].
    rewrite get_by_id_fst.
    rewrite (create_payment_transactions env self w data name resp Hme Hpay Hfresh).
    rewrite filter_app, (filter_payment_id_absent _ _ Hfresh).
    rewrite filter_cons_True by done. reflexivity.
Qed.

Lemma yookassa_transaction_lifecycle_witness :
  let w1 := (create_payment sample_env sample_self sample_data empty_world).2 in
  let row := {| tx_user := 42; subscription := sample_pack sample_data;
                payment_id := "pay-1"; status := StatusEnum PENDING |} in
  let request := sample_request "185.71.76.1"
                   (Returned (notification_json PAYMENT_SUCCEEDED "pay-1")) in
  transactions w1 = [row] /\
  (TransactionModel.get_by_id "pay-1"
     (webhook_handler sample_env sample_self request w1).2).1
    = Returned (Some (with_status (StatusEnum COMPLETED) row)) /\
  row_enumerated "pay-1"
    (Bot.run_events sample_env sample_self
       [Bot.EvSuccessfulPayment PaymentHandler.stars_message; Bot.EvWebhook request]
       w1).
Proof.
  intros w1 row request.
  destruct (yookassa_transaction_lifecycle sample_env sample_self)
    as (Hcreate & Hhook & Hever).
  split; [|split].
  - apply (Hcreate empty_world sample_data "shop_bot"
             {| id := "pay-1";
                confirmation_url := "https://yoomoney.ru/checkout?orderId=pay-1" |});
      [reflexivity | reflexivity | vm_compute; apply not_elem_of_nil].
  - refine (proj1 (Hhook w1 request
              (notification_json PAYMENT_SUCCEEDED "pay-1")
              {| event := PAYMENT_SUCCEEDED; object_id := "pay-1" |}
              row sample_data _ _ _ _ _) _).
    all: vm_compute; reflexivity.
  - apply (Hever empty_world sample_data "shop_bot"
             {| id := "pay-1";
                confirmation_url := "https://yoomoney.ru/checkout?orderId=pay-1" |});
      [reflexivity | reflexivity | vm_compute; apply not_elem_of_nil].
Defined.

(** After a Telegram Stars payment the table does hold a status outside
    the enumeration, in a row of its own. *)
Example stars_payment_stores_success :
  status <$> transactions
    (Bot.run_events sample_env sample_self
       [ Bot.EvCreatePayment sample_data;
         Bot.EvSuccessfulPayment PaymentHandler.stars_message;
         Bot.EvWebhook (sample_request "185.71.76.1"
                          (Returned (notification_json PAYMENT_CANCELED "pay-1"))) ]
       empty_world)
  = [StatusEnum CANCELED; StatusStr "success"].
Proof. vm_compute. reflexivity. Qed.

(** A succeeded notification while the VPN service is down: the row is
    COMPLETED, the handler raises afterwards and the answer is 400. *)
Example webhook_service_failure :
  let w1 := (create_payment PaymentHandler.vpn_down sample_self sample_data
               empty_world).2 in
  let r := webhook_handler PaymentHandler.vpn_down sample_self
             (sample_request "185.71.76.1"
                (Returned (notification_json PAYMENT_SUCCEEDED "pay-1"))) w1 in
  r.1 = Returned {| status_code := 400 |} /\
  status <$> transactions r.2 = [StatusEnum COMPLETED].
Proof. vm_compute. done. Qed.

End GatewayLifecycle.

(** ** More on promo codes: reads, and how they compose with [delete] *)
Section PromocodeReads.
Import Promocode.

Lemma scalar_absent c t :
  c ∉ code <$> t -> scalar_one_or_none (select_where_code c t) = Returned None.
Proof. intros Hnin. by rewrite select_not_present. Qed.

Lemma scalar_present c t p :
  NoDup (code <$> t) -> p ∈ t -> code p = c ->
  scalar_one_or_none (select_where_code c t) = Returned (Some p).
Proof.
  intros Hnd Hin Hc.
  assert (c ∈ code <$> t) as Hcin by (apply list_elem_of_fmap; by exists p).
  destruct (select_present c t Hnd Hcin) as (l1 & q & l2 & -> & Hq & H1 & H2 & ->).
  cbn. do 2 f_equal.
  apply elem_of_app in Hin as [Hin|Hin].
  - exfalso. apply H1. apply list_elem_of_fmap. by exists p.
  - apply elem_of_cons in Hin as [->|Hin]; [done|].
    exfalso. apply H2. apply list_elem_of_fmap. by exists p.
Qed.

(** X1. On a working session with nothing pending, and under the unique
    constraint, [get] returns the row stored under the code, [None]
    exactly when there is none, and leaves the session and the log as
    they were. *)
Theorem get_returns_the_stored_row c st :
  inactive (session st) = false -> clean (session st) ->
  NoDup (code <$> table (session st)) ->
  exists r, get c st = (Returned r, st) /\
    (forall p, r = Some p <-> p ∈ table (session st) /\ code p = c) /\
    (r = None <-> c ∉ code <$> table (session st)).
Proof.
  intros Hi Hcl Hnd. unfold get. rewrite (execute_select_clean c st Hi Hcl).
  destruct (decide (c ∈ code <$> table (session st))) as [Hin|Hnin].
  - apply list_elem_of_fmap in Hin as Hin'. destruct Hin' as (p & Hc & Hp).
    rewrite (scalar_present c _ p Hnd Hp (eq_sym Hc)).
    exists (Some p). split; [done|]. split.
    + intros q. split.
      * intros [= <-]. done.
      * intros [Hq Hqc].
        pose proof (scalar_present c _ q Hnd Hq Hqc) as Hs.
        rewrite (scalar_present c _ p Hnd Hp (eq_sym Hc)) in Hs. congruence.
    + split; [done|]. intros Hn. by destruct Hn.
  - rewrite (scalar_absent c _ Hnin). exists None. split; [done|]. split.
    + intros p. split; [done|]. intros [Hp Hc]. destruct Hnin.
      apply list_elem_of_fmap. by exists p.
    + done.
Qed.

Lemma get_returns_the_stored_row_witness :
  NoDup (code <$> sample_table) /\
  exists r, get "XYZ789" (open_session sample_table)
              = (Returned r, open_session sample_table) /\
    (forall p, r = Some p <-> p ∈ sample_table /\ code p = "XYZ789") /\
    (r = None <-> "XYZ789" ∉ code <$> sample_table).
Proof.
  assert (NoDup (code <$> sample_table)) as Hnd.
  { refine (bool_decide_unpack _ _). vm_compute. exact I. }
  split; [exact Hnd|].
  exact (get_returns_the_stored_row "XYZ789" (open_session sample_table)
           eq_refl (conj eq_refl eq_refl) Hnd).
Defined.

(** X2. On a working session with nothing pending, and under the unique
    constraint, [exists] answers [True] exactly when a row with the code
    is stored, and changes nothing. *)
Theorem exists_iff_stored c st :
  inactive (session st) = false -> clean (session st) ->
  NoDup (code <$> table (session st)) ->
  exists_ c st = (Returned (bool_decide (c ∈ code <$> table (session st))), st).
Proof.
  intros Hi Hcl Hnd. unfold exists_. unfold_monad.
  rewrite (execute_select_clean c st Hi Hcl).
  case_bool_decide as Hin.
  - apply list_elem_of_fmap in Hin as (p & Hc & Hp).
    by rewrite (scalar_present c _ p Hnd Hp (eq_sym Hc)).
  - by rewrite (scalar_absent c _ Hin).
Qed.

Lemma exists_iff_stored_witness :
  NoDup (code <$> sample_table) /\
  exists_ "ABC123" (open_session sample_table)
    = (Returned true, open_session sample_table).
Proof.
  assert (NoDup (code <$> sample_table)) as Hnd.
  { refine (bool_decide_unpack _ _). vm_compute. exact I. }
  split; [exact Hnd|].
  exact (exists_iff_stored "ABC123" (open_session sample_table)
           eq_refl (conj eq_refl eq_refl) Hnd).
Defined.

Lemma delete_eval_absent c t :
  c ∉ code <$> t -> delete c (open_session t) = (Returned false, open_session t).
Proof.
  intros Hnin. unfold delete, execute_select, _autoflush, flush. unfold_monad.
  unfold open_session. cbn -[select_where_code]. by rewrite select_not_present.
Qed.

Lemma delete_eval_present c t :
  table_ok t -> c ∈ code <$> t ->
  exists l1 p l2, t = l1 ++ p :: l2 /\ code p = c /\
    (c ∉ code <$> l1) /\ (c ∉ code <$> l2) /\
    delete c (open_session t) = (Returned true, open_session (l1 ++ l2)).
Proof.
  intros [Hid Hcode] Hin.
  destruct (select_present c t Hcode Hin) as (l1 & p & l2 & -> & Hp & H1 & H2 & Hsel).
  exists l1, p, l2. repeat split; try done.
  unfold delete, execute_select, session_delete, commit, _autoflush, flush, with_session.
  unfold_monad. unfold open_session.
  cbn -[flush_deletes select_where_code].
  rewrite Hsel. cbn -[flush_deletes].
  by rewrite flush_deletes_one.
Qed.

Lemma table_ok_remove l1 p l2 : table_ok (l1 ++ p :: l2) -> table_ok (l1 ++ l2).
Proof.
  unfold table_ok. rewrite !fmap_app, !fmap_cons.
  intros [Hid Hcode]. split.
  - apply NoDup_app in Hid as (Ha & Hb & Hc%NoDup_cons).
    apply NoDup_app. split; [done|]. split; [|tauto].
    intros x Hx Hx'. apply (Hb x Hx). by right.
  - apply NoDup_app in Hcode as (Ha & Hb & Hc%NoDup_cons).
    apply NoDup_app. split; [done|]. split; [|tauto].
    intros x Hx Hx'. apply (Hb x Hx). by right.
Qed.

(** X3. After [delete] has removed a code, [exists] answers [False] for
    it, and [get] returns for every other code what it returned
    before. *)
Theorem delete_then_lookup c t :
  table_ok t -> c ∈ code <$> t ->
  let st' := (delete c (open_session t)).2 in
  exists_ c st' = (Returned false, st') /\
  (forall c', c' <> c -> (get c' st').1 = (get c' (open_session t)).1).
Proof.
  intros Hok Hin st'.
  destruct (delete_eval_present c t Hok Hin)
    as (l1 & p & l2 & -> & Hp & H1 & H2 & Hd).
  subst st'. rewrite Hd. cbn [snd]. split.
  - unfold exists_, execute_select, _autoflush, flush. unfold_monad. cbn -[select_where_code].
    rewrite scalar_absent; [done|].
    rewrite fmap_app, elem_of_app. tauto.
  - intros c' Hne. unfold get, execute_select, _autoflush, flush. unfold_monad. cbn.
    unfold select_where_code. rewrite !filter_app.
    rewrite (filter_cons_False _ p) by congruence. done.
Qed.

Lemma delete_then_lookup_witness :
  table_ok sample_table /\
  exists_ "ABC123" (delete "ABC123" (open_session sample_table)).2
    = (Returned false, (delete "ABC123" (open_session sample_table)).2).
Proof.
  assert (table_ok sample_table) as Hok.
  { refine (bool_decide_unpack _ _). vm_compute. exact I. }
  split; [exact Hok|].
  refine (proj1 (delete_then_lookup "ABC123" sample_table Hok _)).
  vm_compute. left.
Defined.

(** X4. Deleting twice is deleting once: the second [delete] of a code
    returns [False] and leaves the session as the first left it. *)
Theorem delete_twice c t :
  table_ok t ->
  let st' := (delete c (open_session t)).2 in
  delete c st' = (Returned false, st').
Proof.
  intros Hok st'. subst st'.
  destruct (decide (c ∈ code <$> t)) as [Hin|Hnin].
  - destruct (delete_eval_present c t Hok Hin)
      as (l1 & p & l2 & -> & Hp & H1 & H2 & Hd).
    rewrite Hd. cbn [snd]. apply delete_eval_absent.
    rewrite fmap_app, elem_of_app. tauto.
  - rewrite (delete_eval_absent c t Hnin). cbn [snd].
    by apply delete_eval_absent.
Qed.

Lemma delete_twice_witness :
  table_ok sample_table /\
  delete "XYZ789" (delete "XYZ789" (open_session sample_table)).2
    = (Returned false, open_session [promo_abc]).
Proof.
  assert (table_ok sample_table) as Hok.
  { refine (bool_decide_unpack _ _). vm_compute. exact I. }
  split; [exact Hok|].
  exact (delete_twice "XYZ789" sample_table Hok).
Defined.

(** X5. [delete] keeps the schema's constraints: afterwards the table
    still has unique identifiers and unique codes, every row it holds was
    there before, and nothing is left pending in the session. *)
Theorem delete_keeps_schema c t :
  table_ok t ->
  let s' := session (delete c (open_session t)).2 in
  table_ok (table s') /\ table s' ⊆ t /\ clean s'.
Proof.
  intros Hok s'. subst s'.
  destruct (decide (c ∈ code <$> t)) as [Hin|Hnin].
  - destruct (delete_eval_present c t Hok Hin)
      as (l1 & p & l2 & -> & Hp & H1 & H2 & Hd).
    rewrite Hd. cbn. split; [by apply (table_ok_remove _ _ _ Hok)|].
    split; [|done]. intros x. rewrite !elem_of_app, elem_of_cons. tauto.
  - rewrite (delete_eval_absent c t Hnin). cbn. done.
Qed.

Lemma delete_keeps_schema_witness :
  table_ok sample_table /\
  table_ok (table (session (delete "ABC123" (open_session sample_table)).2)).
Proof.
  assert (table_ok sample_table) as Hok.
  { refine (bool_decide_unpack _ _). vm_compute. exact I. }
  split; [exact Hok|].
  exact (proj1 (delete_keeps_schema "ABC123" sample_table Hok)).
Defined.

(** X6. On a freshly opened session [create] returns the promo code
    already stored under the code, [None] when there is none, and adds no
    row: the session and the log are left exactly as they were. *)
Theorem create_returns_stored_and_adds_nothing c t :
  NoDup (code <$> t) ->
  create c (open_session t) = ((get c (open_session t)).1, open_session t) /\
  (c ∉ code <$> t ->
   create c (open_session t) = (Returned None, open_session t)).
Proof.
  intros Hnd.
  assert (create c (open_session t) = ((get c (open_session t)).1, open_session t))
    as Hcreate.
  { unfold create, get. unfold bind at 1.
    rewrite (execute_select_clean c (open_session t)) by done.
    cbn [fst session table open_session].
    destruct (scalar_one_or_none (select_where_code c t)) as [r|e]; [|done].
    unfold try_except, bind. by rewrite commit_clean. }
  split; [done|]. intros Hnin. rewrite Hcreate. f_equal.
  unfold get. rewrite (execute_select_clean c (open_session t)) by done.
  by apply scalar_absent.
Qed.

Lemma create_returns_stored_and_adds_nothing_witness :
  NoDup (code <$> sample_table) /\
  create "NEW2025" (open_session sample_table)
    = (Returned None, open_session sample_table).
Proof.
  assert (NoDup (code <$> sample_table)) as Hnd.
  { refine (bool_decide_unpack _ _). vm_compute. exact I. }
  split; [exact Hnd|].
  refine (proj2 (create_returns_stored_and_adds_nothing "NEW2025" sample_table Hnd) _).
  vm_compute. intros H. inversion H as [|? ? ? H']; subst.
  inversion H' as [|? ? ? H'']; subst. inversion H''.
Defined.



(** With [autoflush] on, a pending object whose code is taken is
    rejected at the query of [create], before the [try]: the
    [IntegrityError] reaches the caller, nothing is logged, and the
    session stays inactive. *)
Example create_autoflush_raises_at_the_query :
  exists text,
    create "XYZ789" st_duplicate_autoflush
      = (Raised (IntegrityError text), with_session deactivated st_duplicate_autoflush).
Proof. eexists. vm_compute. reflexivity. Qed.

(** With [autoflush] on, [get] flushes the caller's pending object and
    returns it. *)
Example get_autoflush_returns_the_pending_row :
  (get "NEW2025" st_new_pending).1 = Returned (Some (with_id 3 promo_new)).
Proof. vm_compute. reflexivity. Qed.

(** An inactive session refuses the next call. *)
Example create_on_inactive_session :
  create "XYZ789" (create "XYZ789" st_duplicate_autoflush).2
    = (Raised PendingRollbackError, with_session deactivated st_duplicate_autoflush).
Proof. vm_compute. reflexivity. Qed.

End PromocodeReads.

(** ** More on the YooKassa gateway *)
Section YookassaMore.
Import Yookassa.

(** X7. When the request carries [X-Forwarded-For], the handler never
    looks at the remote address: two requests with the same header and
    the same body are answered alike and leave the same world, whoever
    sent them. *)
Theorem webhook_ignores_remote_when_forwarded env self r1 r2 w ip :
  headers r1 !! "X-Forwarded-For" = Some ip ->
  headers r2 !! "X-Forwarded-For" = Some ip ->
  json r1 = json r2 ->
  webhook_handler env self r1 w = webhook_handler env self r2 w.
Proof.
  intros H1 H2 Hj. unfold webhook_handler, source_ip.
  by rewrite H1, H2, Hj.
Qed.

Lemma webhook_ignores_remote_when_forwarded_witness :
  let body := Returned (notification_json PAYMENT_CANCELED "pay-1") in
  let genuine := {| headers := {[ "X-Forwarded-For" := "185.71.76.1" ]};
                    remote := Some "185.71.76.1"; json := body |} in
  let forged := {| headers := {[ "X-Forwarded-For" := "185.71.76.1" ]};
                   remote := Some "203.0.113.9"; json := body |} in
  webhook_handler sample_env sample_self genuine empty_world
    = webhook_handler sample_env sample_self forged empty_world.
Proof.
  intros body genuine forged.
  apply (webhook_ignores_remote_when_forwarded sample_env sample_self genuine forged
           empty_world "185.71.76.1"); reflexivity.
Defined.

(** X8. [create_payment] stores and logs nothing unless the gateway
    accepted the payment: an exception from [get_me] or from
    [Payment.create] leaves the world untouched; otherwise the call
    returns the confirmation URL of the response, makes no external call
    and logs one INFO record. *)
Theorem create_payment_outcome env self data w :
  (forall e, get_me_username self = Raised e ->
     create_payment env self data w = (Raised e, w)) /\
  (forall name e,
     get_me_username self = Returned name ->
     Payment_create self (build_request self data name) = Raised e ->
     create_payment env self data w = (Raised e, w)) /\
  (forall name resp,
     get_me_username self = Returned name ->
     Payment_create self (build_request self data name) = Returned resp ->
     let r := create_payment env self data w in
     r.1 = Returned (confirmation_url resp) /\
     calls r.2 = calls w /\
     log r.2 = log w ++
       [ {| levelname := INFO;
            message := "Payment link created for user " +:+ pretty (user_id data)
                       +:+ ": " +:+ confirmation_url resp |} ]).
Proof.
  unfold create_payment, TransactionModel.create, logger. unfold_monad.
  split; [|split].
  - by intros e ->.
  - by intros name e -> ->.
  - intros name resp -> ->. cbv zeta. by case_bool_decide.
Qed.

Lemma create_payment_outcome_witness :
  (create_payment sample_env sample_self sample_data empty_world).1
    = Returned "https://yoomoney.ru/checkout?orderId=pay-1".
Proof.
  exact (proj1 (proj2 (proj2 (create_payment_outcome sample_env sample_self
                                sample_data empty_world))
                  "shop_bot"
                  {| id := "pay-1";
                     confirmation_url := "https://yoomoney.ru/checkout?orderId=pay-1" |}
                  eq_refl eq_refl)).
Defined.

#[local] Instance quiet_preorder : PreOrder quiet.
Proof.
  split; [by intros w|].
  intros w1 w2 w3 (? & ? & ?) (? & ? & ?). unfold quiet. split_and!; congruence.
Qed.

Lemma logger_quiet l msg : preserves quiet (logger l msg).
Proof. by intros w. Qed.

Lemma update_quiet pid v : preserves quiet (TransactionModel.update pid v).
Proof. by intros w. Qed.

Lemma handle_payment_canceled_quiet env pid :
  preserves quiet (handle_payment_canceled env pid).
Proof.
  unfold handle_payment_canceled.
  repeat first [ apply logger_quiet | apply update_quiet | preserves_step ].
Qed.

(** X9. A canceled notification only touches the status and the log:
    the handler makes no external call (nobody is notified, the VPN
    service is not contacted) and leaves the users and the FSM data
    alone, whether it returns 200 or 400. *)
Theorem webhook_canceled_is_quiet env self request w j n :
  is_ip_trusted self (source_ip request) = Returned true ->
  json request = Returned j ->
  WebhookNotificationFactory_create self j = Returned n ->
  event n = PAYMENT_CANCELED ->
  quiet w (webhook_handler env self request w).2.
Proof.
  intros Hip Hjson Hn Hev.
  pose proof (handle_payment_canceled_quiet env (object_id n) w) as Hq.
  unfold webhook_handler, process_event, logger. unfold_monad.
  rewrite Hip, Hjson, Hn. cbn [negb].
  rewrite bool_decide_eq_false_2 by (rewrite Hev; done).
  rewrite bool_decide_eq_true_2 by done.
  destruct (handle_payment_canceled env (object_id n) w) as [[[]|e] w1];
    cbn in *; done.
Qed.

(** What the locale block does is fixed by the collaborators, the user
    and the data: it appends the same records and the same calls to any
    world. *)
Lemma succeeded_locale_block_frame env user data :
  let locale := match user with Some u => language_code u | None => "en" end in
  exists r ls cs,
    forall v, succeeded_locale_block env user data v
              = (r, extend_world ls (UseLocale locale :: cs) v).
Proof.
  unfold succeeded_locale_block, call, logger. unfold_monad. cbv zeta.
  destruct (is_extend data);
    repeat match goal with
           | |- context [answer_of env ?c] => destruct (answer_of env c)
           end;
    eexists _, _, _; intros v; unfold extend_world, add_call, add_log; cbn;
    f_equal; f_equal;
    first [ symmetry; apply app_nil_r | rewrite <- ?app_assoc; reflexivity ].
Qed.

Lemma webhook_succeeded_frame env self pid packed data user :
  unpack env packed = Returned data ->
  exists resp ls c cs,
    forall request w j n row,
      is_ip_trusted self (source_ip request) = Returned true ->
      json request = Returned j ->
      WebhookNotificationFactory_create self j = Returned n ->
      event n = PAYMENT_SUCCEEDED ->
      object_id n = pid ->
      head (filter (fun t => payment_id t = pid) (transactions w)) = Some row ->
      subscription row = packed ->
      head (filter (fun u => tg_id u = user_id data) (users w)) = user ->
      webhook_handler env self request w =
        (Returned resp,
         extend_world ls (c :: cs)
           (set_transactions
              (fmap (TransactionModel.set_status_where pid (StatusEnum COMPLETED))) w)).
Proof.
  intros Hunpack.
  pose proof (succeeded_locale_block_frame env user data) as Hf. cbv zeta in Hf.
  destruct Hf as (r & ls0 & cs & Hframe).
  set (prefix := [ {| levelname := INFO; message := "Payment succeeded " +:+ pid |};
                   {| levelname := DEBUG;
                      message := "Subscription data unpacked: " +:+ packed |} ]).
  destruct r as [[]|e];
    [ exists {| status_code := 200 |}, (prefix ++ ls0)
    | exists {| status_code := 400 |},
        (prefix ++ ls0 ++
         [ {| levelname := ERROR;
              message := "Error processing YooKassa webhook: " +:+ exc_str e |} ]) ];
    eexists _, _; intros request w j n row Hip Hjson Hn Hev Hpid Hrow Hsub Huser;
    unfold webhook_handler, process_event, handle_payment_succeeded,
      succeeded_session_block, TransactionModel.get_by_id,
      TransactionModel.update, User_get, logger, subscription_of;
    unfold_monad; rewrite Hip, Hjson, Hn; cbn [negb];
    rewrite bool_decide_eq_true_2 by done;
    cbn -[succeeded_locale_block filter]; rewrite Hpid, Hrow;
    cbn -[succeeded_locale_block filter]; rewrite Hsub, Hunpack;
    cbn -[succeeded_locale_block filter]; rewrite Huser, Hframe;
    unfold extend_world, add_log, set_transactions; cbn;
    f_equal; f_equal; by rewrite <- ?app_assoc.
Qed.

Lemma set_status_where_twice pid v (ts : list Transaction) :
  TransactionModel.set_status_where pid v
    <$> (TransactionModel.set_status_where pid v <$> ts)
  = TransactionModel.set_status_where pid v <$> ts.
Proof.
  rewrite <- list_fmap_compose. apply list_fmap_ext. intros i t _. cbn.
  unfold TransactionModel.set_status_where.
  repeat case_bool_decide; done.
Qed.

(** X10. There is no guard against a notification that arrives twice.
    A succeeded notification delivered again leaves the transactions
    table as the first delivery left it, but the handler repeats every
    external call of the first delivery (locale, menu, VPN, user
    notification). *)
Theorem webhook_succeeded_redelivery env self request w j n row data :
  is_ip_trusted self (source_ip request) = Returned true ->
  json request = Returned j ->
  WebhookNotificationFactory_create self j = Returned n ->
  event n = PAYMENT_SUCCEEDED ->
  (TransactionModel.get_by_id (object_id n) w).1 = Returned (Some row) ->
  unpack env (subscription row) = Returned data ->
  let w1 := (webhook_handler env self request w).2 in
  let w2 := (webhook_handler env self request w1).2 in
  transactions w2 = transactions w1 /\
  exists cs, cs <> [] /\ calls w1 = calls w ++ cs /\ calls w2 = calls w1 ++ cs.
Proof.
  intros Hip Hjson Hn Hev Hget Hunpack w1 w2.
  rewrite get_by_id_fst in Hget. injection Hget as Hrow.
  destruct (webhook_succeeded_frame env self (object_id n) (subscription row) data
              (head (filter (fun u => tg_id u = user_id data) (users w))) Hunpack)
    as (resp & ls & c & cs' & Hframe).
  set (cs := c :: cs') in *.
  pose proof (Hframe request w j n row Hip Hjson Hn Hev eq_refl Hrow eq_refl eq_refl)
    as H1.
  assert (w1 = extend_world ls cs
            (set_transactions
               (fmap (TransactionModel.set_status_where (object_id n)
                        (StatusEnum COMPLETED))) w)) as Hw1.
  { subst w1. by rewrite H1. }
  assert (webhook_handler env self request w1 =
            (Returned resp,
             extend_world ls cs
               (set_transactions
                  (fmap (TransactionModel.set_status_where (object_id n)
                           (StatusEnum COMPLETED))) w1))) as H2.
  { apply (Hframe request w1 j n (with_status (StatusEnum COMPLETED) row)
             Hip Hjson Hn Hev eq_refl).
    - rewrite Hw1. cbn [extend_world set_transactions transactions].
      by apply update_then_get.
    - done.
    - by rewrite Hw1. }
  assert (w2 = extend_world ls cs
            (set_transactions
               (fmap (TransactionModel.set_status_where (object_id n)
                        (StatusEnum COMPLETED))) w1)) as Hw2.
  { subst w2. by rewrite H2. }
  split.
  - rewrite Hw2. cbn [extend_world set_transactions transactions].
    rewrite Hw1 at 1. cbn [extend_world set_transactions transactions].
    rewrite set_status_where_twice. by rewrite Hw1.
  - exists cs. split; [done|]. split.
    + by rewrite Hw1.
    + by rewrite Hw2.
Qed.

Lemma webhook_succeeded_redelivery_witness :
  let request := sample_request "185.71.76.1"
                   (Returned (notification_json PAYMENT_SUCCEEDED "pay-1")) in
  let w := (create_payment sample_env sample_self sample_data empty_world).2 in
  let w1 := (webhook_handler sample_env sample_self request w).2 in
  let w2 := (webhook_handler sample_env sample_self request w1).2 in
  transactions w2 = transactions w1 /\
  exists cs, cs <> [] /\ calls w1 = calls w ++ cs /\ calls w2 = calls w1 ++ cs.
Proof.
  intros request w.
  refine (webhook_succeeded_redelivery sample_env sample_self request w
            (notification_json PAYMENT_SUCCEEDED "pay-1")
            {| event := PAYMENT_SUCCEEDED; object_id := "pay-1" |}
            {| tx_user := 42; subscription := sample_pack sample_data;
               payment_id := "pay-1"; status := StatusEnum PENDING |}
            sample_data _ _ _ _ _ _).
  all: vm_compute; reflexivity.
Defined.

Example redelivery_creates_two_subscriptions :
  let request := sample_request "185.71.76.1"
                   (Returned (notification_json PAYMENT_SUCCEEDED "pay-1")) in
  let w := (create_payment sample_env sample_self sample_data empty_world).2 in
  let w2 := Bot.run_events sample_env sample_self
              [Bot.EvWebhook request; Bot.EvWebhook request] w in
  calls w2 =
    [ UseLocale "en"; RedirectToMainMenu None; CreateSubscription None 2 30;
      GetKey None; NotifyPurchaseSuccess 42 "vless://key";
      UseLocale "en"; RedirectToMainMenu None; CreateSubscription None 2 30;
      GetKey None; NotifyPurchaseSuccess 42 "vless://key" ].
Proof. vm_compute. reflexivity. Qed.

Lemma webhook_canceled_is_quiet_witness :
  let request := sample_request "185.71.76.1"
                   (Returned (notification_json PAYMENT_CANCELED "pay-1")) in
  let w := (create_payment sample_env sample_self sample_data empty_world).2 in
  quiet w (webhook_handler sample_env sample_self request w).2.
Proof.
  intros request w.
  refine (webhook_canceled_is_quiet sample_env sample_self request w
            (notification_json PAYMENT_CANCELED "pay-1")
            {| event := PAYMENT_CANCELED; object_id := "pay-1" |} _ _ _ _).
  all: vm_compute; reflexivity.
Defined.

(** X11. The row is marked COMPLETED before the subscription is created:
    when [create_subscription] raises, the notification is answered with
    400, the row already holds COMPLETED, and neither the key is fetched
    nor the user notified. *)
Theorem webhook_completed_before_activation env self request w j n row data user e :
  is_ip_trusted self (source_ip request) = Returned true ->
  json request = Returned j ->
  WebhookNotificationFactory_create self j = Returned n ->
  event n = PAYMENT_SUCCEEDED ->
  (TransactionModel.get_by_id (object_id n) w).1 = Returned (Some row) ->
  unpack env (subscription row) = Returned data ->
  (User_get (user_id data) w).1 = Returned user ->
  is_extend data = false ->
  let locale := match user with Some u => language_code u | None => "en" end in
  answer_of env (UseLocale locale) = None ->
  answer_of env (RedirectToMainMenu user) = None ->
  answer_of env (CreateSubscription user (devices data) (duration data)) = Some e ->
  let r := webhook_handler env self request w in
  r.1 = Returned {| status_code := 400 |} /\
  (TransactionModel.get_by_id (object_id n) r.2).1
    = Returned (Some (with_status (StatusEnum COMPLETED) row)) /\
  calls r.2 = calls w ++
    [ UseLocale locale; RedirectToMainMenu user;
      CreateSubscription user (devices data) (duration data) ].
Proof.
  intros Hip Hjson Hn Hev Hget Hunpack Huser Hext locale Hl Hr Hc r.
  rewrite get_by_id_fst in Hget. injection Hget as Hrow.
  cbn in Huser. injection Huser as Huser.
  subst r. rewrite get_by_id_fst.
  unfold webhook_handler, process_event, handle_payment_succeeded,
    succeeded_session_block, succeeded_locale_block, TransactionModel.get_by_id,
    TransactionModel.update, User_get, logger, call, subscription_of.
  unfold_monad. rewrite Hip, Hjson, Hn. cbn [negb].
  rewrite bool_decide_eq_true_2 by done.
  cbn -[filter]. rewrite Hrow. cbn -[filter]. rewrite Hunpack.
  cbn -[filter]. rewrite Huser, Hext. fold locale. rewrite Hl.
  cbn -[filter]. rewrite Hr. cbn -[filter]. rewrite Hc. cbn -[filter].
  split; [done|]. split.
  - f_equal. by apply update_then_get.
  - by rewrite <- !app_assoc.
Qed.

Lemma webhook_completed_before_activation_witness :
  let request := sample_request "185.71.76.1"
                   (Returned (notification_json PAYMENT_SUCCEEDED "pay-1")) in
  let w := (create_payment PaymentHandler.vpn_down sample_self sample_data
              empty_world).2 in
  let r := webhook_handler PaymentHandler.vpn_down sample_self request w in
  r.1 = Returned {| status_code := 400 |} /\
  (TransactionModel.get_by_id "pay-1" r.2).1
    = Returned (Some {| tx_user := 42; subscription := sample_pack sample_data;
                        payment_id := "pay-1"; status := StatusEnum COMPLETED |}) /\
  calls r.2 = [ UseLocale "en"; RedirectToMainMenu None; CreateSubscription None 2 30 ].
Proof.
  intros request w.
  refine (webhook_completed_before_activation PaymentHandler.vpn_down sample_self
            request w (notification_json PAYMENT_SUCCEEDED "pay-1")
            {| event := PAYMENT_SUCCEEDED; object_id := "pay-1" |}
            {| tx_user := 42; subscription := sample_pack sample_data;
               payment_id := "pay-1"; status := StatusEnum PENDING |}
            sample_data None (ServiceError "vpn") _ _ _ _ _ _ _ _ _ _ _).
  all: vm_compute; reflexivity.
Defined.

End YookassaMore.

(** ** More on the /start handler *)
Section MainMenuMore.
Import MainMenu.

(** X13. The first /start of a chat, with no menu message on record (or
    the identifier 0): nothing is deleted and the FSM data is not
    cleared; the menu is sent, its identifier is added to the data that
    was there, and the command message is deleted. *)
Theorem command_main_menu_without_previous env message w :
  (fsm_data w !! "message_id" = None \/ fsm_data w !! "message_id" = Some 0) ->
  answer_of env (MessageAnswer (prepare_message (from_user message))
                               (MainMenuKeyboard (is_admin env))) = None ->
  answer_of env (MessageDelete (chat_id message) (msg_id message)) = None ->
  let r := command_main_menu env message w in
  r.1 = Returned tt /\
  fsm_data r.2 = <["message_id" := sent_message_id env]> (fsm_data w) /\
  calls r.2 = calls w ++
    [ MessageAnswer (prepare_message (from_user message))
                    (MainMenuKeyboard (is_admin env));
      MessageDelete (chat_id message) (msg_id message) ].
Proof.
  intros Hprev Hans Hmd r. subst r.
  unfold command_main_menu, state_get_value, state_clear, state_update_data,
    logger, call.
  unfold_monad. cbn -[pretty].
  assert (truthy (fsm_data w !! "message_id") = false) as ->
    by (destruct Hprev as [-> | ->]; done).
  cbn -[pretty]. rewrite Hans, Hmd. cbn.
  split; [done|]. split; [done|]. by rewrite <- !app_assoc.
Qed.

Lemma command_main_menu_without_previous_witness :
  let w := set_fsm_data (insert "promo" 5) Yookassa.empty_world in
  let r := command_main_menu Yookassa.sample_env PaymentHandler.menu_message w in
  r.1 = Returned tt /\
  fsm_data r.2 = {[ "message_id" := 901; "promo" := 5 ]} /\
  calls r.2 = [ MessageAnswer (WelcomeText "Alice") (MainMenuKeyboard false);
                MessageDelete 42 950 ].
Proof.
  intros w.
  pose proof (command_main_menu_without_previous Yookassa.sample_env
                PaymentHandler.menu_message w (or_introl eq_refl) eq_refl eq_refl)
    as (H1 & H2 & H3).
  split; [exact H1|]. split; [|exact H3].
  rewrite H2. vm_compute. reflexivity.
Defined.

(** Whatever the Bot API answers, a /start in a chat with a menu message
    on record first asks for that message to be deleted. *)
Lemma command_main_menu_deletes_previous env message w previous :
  fsm_data w !! "message_id" = Some previous -> previous <> 0 ->
  exists rest,
    calls (command_main_menu env message w).2
      = calls w ++ DeleteMessage (chat_id message) previous :: rest.
Proof.
  intros Hprev Hnz.
  unfold command_main_menu, state_get_value, state_clear, state_update_data,
    logger, call.
  unfold_monad. cbn -[pretty]. rewrite Hprev. cbn -[pretty].
  destruct (Z.eqb_spec previous 0) as [|_]; [done|]. cbn -[pretty].
  repeat match goal with
         | |- context [answer_of env ?c] => destruct (answer_of env c)
         end;
    cbn; eexists; rewrite <- ?app_assoc; cbn; reflexivity.
Qed.

Lemma command_main_menu_records_menu env message w :
  answer_of env (MessageAnswer (prepare_message (from_user message))
                               (MainMenuKeyboard (is_admin env))) = None ->
  fsm_data (command_main_menu env message w).2 !! "message_id"
    = Some (sent_message_id env).
Proof.
  intros Hans.
  unfold command_main_menu, state_get_value, state_clear, state_update_data,
    logger, call.
  unfold_monad. cbn -[pretty].
  destruct (truthy (fsm_data w !! "message_id")); cbn -[pretty];
    repeat match goal with
           | |- context [answer_of env ?c] =>
               first [ rewrite Hans | destruct (answer_of env c) ]
           end;
    cbn; apply lookup_insert_eq.
Qed.

(** X14. Two /start commands in a row: if the first one sent its menu,
    the second one asks for exactly that menu message to be deleted
    before it does anything else. *)
Theorem command_main_menu_twice env first second w :
  answer_of env (MessageAnswer (prepare_message (from_user first))
                               (MainMenuKeyboard (is_admin env))) = None ->
  sent_message_id env <> 0 ->
  let w1 := (command_main_menu env first w).2 in
  exists rest,
    calls (command_main_menu env second w1).2
      = calls w1 ++ DeleteMessage (chat_id second) (sent_message_id env) :: rest.
Proof.
  intros Hans Hnz w1.
  apply command_main_menu_deletes_previous; [|done].
  by apply command_main_menu_records_menu.
Qed.

Lemma command_main_menu_twice_witness :
  let w1 := (command_main_menu Yookassa.sample_env PaymentHandler.menu_message
               Yookassa.empty_world).2 in
  exists rest,
    calls (command_main_menu Yookassa.sample_env PaymentHandler.menu_message w1).2
      = calls w1 ++ DeleteMessage 42 901 :: rest.
Proof.
  intros w1.
  apply (command_main_menu_twice Yookassa.sample_env PaymentHandler.menu_message
           PaymentHandler.menu_message Yookassa.empty_world); [reflexivity|].
  vm_compute. discriminate.
Defined.

End MainMenuMore.

(** ** Returning to the main menu *)
Section MainMenuCallbackFacts.
Import MainMenuCallback.

(** X15. Returning to the main menu through the callback forgets
    everything the FSM held and records the edited message as the menu
    message, whether or not the Bot API accepts the edit; the next /start
    therefore asks for exactly that message to be deleted. *)
Theorem callback_main_menu_resets_fsm env edit_text callback w start :
  (forall t k v, fsm_data (edit_text t k v).2 = fsm_data v) ->
  callback_message_id callback <> 0 ->
  let w1 := (callback_main_menu env edit_text callback w).2 in
  fsm_data w1 = {[ "message_id" := callback_message_id callback ]} /\
  exists rest,
    calls (MainMenu.command_main_menu env start w1).2
      = calls w1 ++ DeleteMessage (MainMenu.chat_id start)
                      (callback_message_id callback) :: rest.
Proof.
  intros Hedit Hnz w1.
  assert (fsm_data w1 = {[ "message_id" := callback_message_id callback ]}) as Hfsm.
  { subst w1.
    unfold callback_main_menu, MainMenu.state_clear, MainMenu.state_update_data,
      logger.
    unfold_monad. cbv zeta. rewrite Hedit. cbn. by rewrite insert_empty. }
  split; [exact Hfsm|].
  apply command_main_menu_deletes_previous; [|done].
  rewrite Hfsm. apply lookup_singleton_eq.
Qed.

Lemma callback_main_menu_resets_fsm_witness :
  let w := set_fsm_data (insert "promo" 5) PaymentHandler.world_with_menu in
  let w1 := (callback_main_menu Yookassa.sample_env edit_refused sample_callback w).2 in
  fsm_data w1 = {[ "message_id" := 777 ]} /\
  exists rest,
    calls (MainMenu.command_main_menu Yookassa.sample_env
             PaymentHandler.menu_message w1).2
      = calls w1 ++ DeleteMessage 42 777 :: rest.
Proof.
  intros w.
  apply (callback_main_menu_resets_fsm Yookassa.sample_env edit_refused
           sample_callback w PaymentHandler.menu_message).
  - intros t k v. reflexivity.
  - vm_compute. discriminate.
Defined.

End MainMenuCallbackFacts.

(** ** More on the Telegram Stars payment handler *)
Section StarsPayment.
Import PaymentHandler.

(** X16. A payload that cannot be unpacked stops the handler at once:
    the exception leaves it, and apart from the first INFO record the
    world is untouched: no refund, no deletion, no subscription, no
    transaction, no reply. *)
Theorem successful_payment_bad_payload env message w e :
  unpack env (invoice_payload (successful_payment_ message)) = Raised e ->
  successful_payment env message w =
    (Raised e,
     add_log {| levelname := INFO;
                message := "Payment successful for user "
                           +:+ pretty (tg_id (from_user message)) |} w).
Proof.
  intros Hun. unfold successful_payment, logger. unfold_monad. cbv zeta.
  by rewrite Hun.
Qed.

Lemma successful_payment_bad_payload_witness :
  let message := {| chat_id := 42; from_user := alice;
                    successful_payment_ :=
                      {| invoice_payload := "garbage";
                         telegram_payment_charge_id := "stars-charge-2" |} |} in
  successful_payment Yookassa.sample_env message Yookassa.empty_world =
    (Raised (ValueError "Bad prefix"),
     add_log {| levelname := INFO; message := "Payment successful for user 42" |}
             Yookassa.empty_world).
Proof.
  intros message.
  apply (successful_payment_bad_payload Yookassa.sample_env message
           Yookassa.empty_world (ValueError "Bad prefix")).
  vm_compute. reflexivity.
Defined.

(** X17. No transaction is recorded for a subscription that was not
    granted: when the VPN service refuses the call, the handler does not
    return and the transactions table is left as it was. *)
Theorem successful_payment_vpn_failure env message w data e :
  unpack env (invoice_payload (successful_payment_ message)) = Returned data ->
  answer_of env (stars_vpn_call data) = Some e ->
  let r := successful_payment env message w in
  transactions r.2 = transactions w /\ (exists e', r.1 = Raised e').
Proof.
  intros Hun Hvpn r. subst r.
  unfold successful_payment, TransactionModel.create, logger, call, stars_vpn_call in *.
  unfold_monad. cbv zeta. rewrite Hun.
  destruct (is_dev env), (is_extend data); rewrite ?Hvpn;
    repeat match goal with
           | |- context [answer_of env ?c] => destruct (answer_of env c)
           end;
    cbn; eauto.
Qed.

Lemma successful_payment_vpn_failure_witness :
  let env := {| answer_of := fun c => match c with
                                      | CreateSubscriptionById _ _ _ =>
                                          Some (ServiceError "vpn")
                                      | _ => None
                                      end;
                vpn_key := "k"; sent_message_id := 1; is_admin := false;
                is_dev := false; pack := pack Yookassa.sample_env;
                unpack := unpack Yookassa.sample_env |} in
  let r := successful_payment env stars_message Yookassa.empty_world in
  transactions r.2 = [] /\ (exists e', r.1 = Raised e').
Proof.
  intros env.
  apply (successful_payment_vpn_failure env stars_message Yookassa.empty_world
           Yookassa.sample_data (ServiceError "vpn")); vm_compute; reflexivity.
Defined.

(** X18. When every call succeeds the handler returns, having recorded
    one transaction with the status "success" under the Telegram charge
    identifier (if none was stored under it), and having made its calls
    in this order: the refund if the payer is a developer, the deletion
    of the invoice message, the VPN call, and the reply. A developer is
    refunded and is granted the subscription all the same. *)
Theorem successful_payment_success env message w data :
  (forall c, answer_of env c = None) ->
  unpack env (invoice_payload (successful_payment_ message)) = Returned data ->
  telegram_payment_charge_id (successful_payment_ message)
    ∉ payment_id <$> transactions w ->
  let user := from_user message in
  let payment := successful_payment_ message in
  let r := successful_payment env message w in
  r.1 = Returned tt /\
  transactions r.2 = transactions w ++
    [ {| tx_user := tg_id user; subscription := invoice_payload payment;
         payment_id := telegram_payment_charge_id payment;
         status := StatusStr "success" |} ] /\
  calls r.2 = calls w
    ++ (if is_dev env
        then [RefundStarPayment (tg_id user) (telegram_payment_charge_id payment)]
        else [])
    ++ [DeleteMessage (chat_id message) (message_id data); stars_vpn_call data]
    ++ (if is_extend data
        then [MessageAnswer (PaymentExtendedText (duration data))
                            BackToMainMenuKeyboard]
        else [GetKeyById (tg_id user);
              MessageAnswer (PaymentKeyText (vpn_key env)) PaymentSuccessKeyboard]).
Proof.
  intros Hall Hun Hfresh user payment r. subst r user payment.
  unfold successful_payment, TransactionModel.create, logger, call, stars_vpn_call.
  unfold_monad. cbv zeta. rewrite Hun.
  destruct (is_dev env), (is_extend data); rewrite !Hall; cbn;
    rewrite bool_decide_eq_false_2 by done; cbn;
    (split; [done|]); (split; [done|]);
    rewrite <- ?app_assoc; reflexivity.
Qed.

Lemma successful_payment_success_witness :
  let r := successful_payment dev_env stars_message Yookassa.empty_world in
  r.1 = Returned tt /\
  transactions r.2 =
    [ {| tx_user := 42; subscription := Yookassa.sample_pack Yookassa.sample_data;
         payment_id := "stars-charge-1"; status := StatusStr "success" |} ] /\
  calls r.2 =
    [ RefundStarPayment 42 "stars-charge-1"; DeleteMessage 42 900;
      CreateSubscriptionById 42 2 30; GetKeyById 42;
      MessageAnswer (PaymentKeyText "vless://key") PaymentSuccessKeyboard ].
Proof.
  apply (successful_payment_success dev_env stars_message Yookassa.empty_world
           Yookassa.sample_data).
  - intros c. reflexivity.
  - vm_compute. reflexivity.
  - vm_compute. apply not_elem_of_nil.
Defined.

Lemma getattr_message_idd data :
  getattr data "message_idd" = Raised (AttributeError "SubscriptionData" "message_idd").
Proof. reflexivity. Qed.

(** X19. Whenever the deletion of the invoice message raises, the handler
    of that failure raises in turn: the [AttributeError] for
    [message_idd] leaves [successful_payment], no warning is logged, the
    deletion is the last call made and the transactions table is left as
    it was. *)
Theorem successful_payment_delete_failure env message w data e :
  unpack env (invoice_payload (successful_payment_ message)) = Returned data ->
  (is_dev env = true ->
   answer_of env (RefundStarPayment (tg_id (from_user message))
                    (telegram_payment_charge_id (successful_payment_ message)))
     = None) ->
  answer_of env (DeleteMessage (chat_id message) (message_id data)) = Some e ->
  let r := successful_payment env message w in
  r.1 = Raised (AttributeError "SubscriptionData" "message_idd") /\
  transactions r.2 = transactions w /\
  filter (fun l => is_warning l = true) (log r.2)
    = filter (fun l => is_warning l = true) (log w) /\
  exists before,
    calls r.2 = before ++ [DeleteMessage (chat_id message) (message_id data)].
Proof.
  intros Hun Hrefund Hdel r. subst r.
  unfold successful_payment, TransactionModel.create, logger, call.
  unfold_monad. cbv zeta. rewrite Hun.
  rewrite getattr_message_idd.
  destruct (is_dev env); [rewrite Hrefund by done|]; rewrite Hdel;
    unfold add_log, add_call; cbn -[filter pretty];
    (split; [done|]); (split; [done|]);
    (split; [rewrite !filter_app; cbn; by rewrite !app_nil_r | eauto]).
Qed.

Lemma successful_payment_delete_failure_witness :
  let r := successful_payment delete_fails stars_message Yookassa.empty_world in
  r.1 = Raised (AttributeError "SubscriptionData" "message_idd") /\
  transactions r.2 = [] /\
  filter (fun l => is_warning l = true) (log r.2) = [] /\
  exists before, calls r.2 = before ++ [DeleteMessage 42 900].
Proof.
  apply (successful_payment_delete_failure delete_fails stars_message
           Yookassa.empty_world Yookassa.sample_data
           (TelegramBadRequest "message to delete not found")).
  - vm_compute. reflexivity.
  - intros H. vm_compute in H. discriminate H.
  - vm_compute. reflexivity.
Defined.

End StarsPayment.

(** ** Inline keyboards *)
Section KeyboardFacts.
Import Download.
Variable gettext : string -> string.
Variable nav : Nav.
Variable back : string -> InlineKeyboardButton.

Lemma download_keyboard_rows platform key :
  exists download,
    download ∈ [APP_STORE; GOOGLE_PLAY; WINDOWS_SETUP] /\
    inline_keyboard (download_keyboard gettext nav back platform key) =
      [ [ {| text := gettext "📥 Download"; callback_data := None;
             url := Some download |};
          {| text := gettext "🔌 Connect"; callback_data := None;
             url := Some ("hiddify://import/" +:+ key) |} ];
        [ back (DOWNLOAD_MAIN nav) ] ].
Proof.
  unfold download_keyboard. cbv zeta.
  repeat case_bool_decide; eexists; (split; [|reflexivity]); set_solver.
Qed.

(** X20. Whatever the platform, the download keyboard has two rows, a
    download and a connect button above the back button; the connect
    link is [hiddify://import/] followed by the user's key, so keyboards
    built for different keys differ. *)
Theorem download_keyboard_carries_the_key platform key :
  (exists download,
     download ∈ [APP_STORE; GOOGLE_PLAY; WINDOWS_SETUP] /\
     links_of (download_keyboard gettext nav back platform key)
       = [download; "hiddify://import/" +:+ key] ++ omap url [back (DOWNLOAD_MAIN nav)]) /\
  (forall key',
     download_keyboard gettext nav back platform key
       = download_keyboard gettext nav back platform key' -> key = key').
Proof.
  split.
  - destruct (download_keyboard_rows platform key) as (d & Hd & Hrows).
    exists d. split; [done|]. unfold links_of. rewrite Hrows. reflexivity.
  - intros key' Heq.
    destruct (download_keyboard_rows platform key) as (d & _ & Hrows).
    destruct (download_keyboard_rows platform key') as (d' & _ & Hrows').
    rewrite Heq, Hrows' in Hrows. by simplify_eq/=.
Qed.

(** X21. The platform buttons lead where they say: the callback data of
    the three buttons of [platforms_keyboard] are the three platform
    constants, the iOS constant gets the App Store link, the Android
    constant (when it differs from the iOS one) the Google Play link, and
    anything else, the Windows constant included, the Windows installer. *)
Theorem platform_links key :
  let download := fun platform =>
    head (links_of (download_keyboard gettext nav back platform key)) in
  fmap (M := list) callback_data <$> inline_keyboard (platforms_keyboard nav back)
    = [ [Some (PLATFORM_IOS nav); Some (PLATFORM_ANDROID nav);
         Some (PLATFORM_WINDOWS nav)];
        [callback_data (back (HOW_TO_CONNECT nav))] ] /\
  download (PLATFORM_IOS nav) = Some APP_STORE /\
  (PLATFORM_ANDROID nav <> PLATFORM_IOS nav ->
   download (PLATFORM_ANDROID nav) = Some GOOGLE_PLAY) /\
  (forall platform,
     platform <> PLATFORM_IOS nav -> platform <> PLATFORM_ANDROID nav ->
     download platform = Some WINDOWS_SETUP).
Proof.
  intros download. subst download. split; [reflexivity|].
  unfold links_of, download_keyboard. cbv zeta.
  split; [|split].
  - by rewrite bool_decide_eq_true_2.
  - intros Hne. rewrite bool_decide_eq_false_2 by done.
    by rewrite bool_decide_eq_true_2.
  - intros platform H1 H2. by rewrite !bool_decide_eq_false_2.
Qed.

End KeyboardFacts.

Lemma download_keyboard_carries_the_key_witness :
  let keyboard := Download.download_keyboard (fun s => s) Download.sample_nav
                    (Keyboard.back_button (fun s => s)) "platform_ios" in
  keyboard "KEY" = keyboard "KEY" /\ "KEY" = "KEY".
Proof.
  intros keyboard. split; [reflexivity|].
  exact (proj2 (download_keyboard_carries_the_key (fun s => s) Download.sample_nav
                  (Keyboard.back_button (fun s => s)) "platform_ios" "KEY")
           "KEY" eq_refl).
Defined.

Lemma platform_links_witness :
  PLATFORM_ANDROID Download.sample_nav
    <> PLATFORM_IOS Download.sample_nav /\
  head (Download.links_of
          (Download.download_keyboard (fun s => s) Download.sample_nav
             (Keyboard.back_button (fun s => s)) "platform_android" "KEY"))
    = Some Download.GOOGLE_PLAY.
Proof.
  split; [vm_compute; discriminate|].
  refine (proj1 (proj2 (proj2 (platform_links (fun s => s) Download.sample_nav
                                 (Keyboard.back_button (fun s => s)) "KEY"))) _).
  vm_compute. discriminate.
Defined.

Section KeyboardShape.
Variable gettext : string -> string.
Variable nav : Nav.

Lemma callback_button_ok t c :
  button_ok {| text := t; callback_data := Some c; url := None |}.
Proof. left. split; [by eexists|done]. Qed.

Lemma url_button_ok t u :
  button_ok {| text := t; callback_data := None; url := Some u |}.
Proof. right. split; [done|by eexists]. Qed.

Ltac markup_ok_tac :=
  unfold markup_ok; cbn;
  repeat first
    [ apply Forall_nil_2
    | apply Forall_cons; split
    | split; [discriminate|split; [cbn; lia|]]
    | apply callback_button_ok
    | apply url_button_ok
    | done ].

(** X22. Every keyboard these two modules build has the shape
    [markup_ok] describes: no row is empty or longer than eight buttons,
    and every button sets exactly one of [callback_data] and [url] (for
    the download keyboards, provided the imported [back_button] does).
    Nothing is said about the texts, the callback data or the links
    themselves. *)
Theorem keyboards_have_the_markup_shape :
  markup_ok (Keyboard.close_notification_keyboard gettext nav) /\
  (forall c, markup_ok (Keyboard.back_keyboard gettext c)) /\
  markup_ok (Keyboard.back_to_main_menu_keyboard gettext nav) /\
  (forall c, markup_ok (Keyboard.cancel_keyboard gettext c)) /\
  (forall back, (forall c, button_ok (back c)) ->
     markup_ok (Download.platforms_keyboard nav back) /\
     forall platform key,
       markup_ok (Download.download_keyboard gettext nav back platform key)).
Proof.
  split; [markup_ok_tac|]. split; [intros c; markup_ok_tac|].
  split; [markup_ok_tac|]. split; [intros c; markup_ok_tac|].
  intros back Hback. split; [markup_ok_tac|].
  intros platform key. unfold Download.download_keyboard. cbv zeta.
  repeat case_bool_decide; markup_ok_tac.
Qed.

End KeyboardShape.

Lemma keyboards_have_the_markup_shape_witness :
  (forall c, button_ok (Keyboard.back_button (fun s => s) c)) /\
  markup_ok (Download.download_keyboard (fun s => s) Download.sample_nav
               (Keyboard.back_button (fun s => s)) "platform_ios" "KEY").
Proof.
  assert (forall c, button_ok (Keyboard.back_button (fun s => s) c)) as Hback.
  { intros c. left. split; [by eexists|reflexivity]. }
  split; [exact Hback|].
  exact (proj2 (proj2 (proj2 (proj2 (proj2
           (keyboards_have_the_markup_shape (fun s => s) Download.sample_nav))))
         (Keyboard.back_button (fun s => s)) Hback) "platform_ios" "KEY").
Defined.

(** ** More on the log handler *)
Section LoggerMore.
Import Logger.

(** X24. [setup_logging] checks the archive format only after the
    handler's constructor has opened the log file: with a format other
    than "zip" and "gz" it raises [ValueError], and the file of the day is
    on disk all the same; a file that was already there keeps its
    content. *)
Theorem setup_logging_opens_before_checking config today fs :
  let filename := DIR config +:+ "/" +:+ today +:+ ".log" in
  let r := setup_logging config today fs in
  r.2 !! filename = Some (default (TextFile []) (fs !! filename)) /\
  (forall path, path <> filename -> r.2 !! path = fs !! path) /\
  (ARCHIVE_FORMAT config <> "zip" -> ARCHIVE_FORMAT config <> "gz" ->
   r.1 = Raised (ValueError "archive_format must be either 'zip' or 'gz'")).
Proof.
  intros filename r. subst r.
  unfold setup_logging, open_append. unfold_monad. fold filename.
  assert (match fs !! filename with
          | Some _ => fs
          | None => <[filename:=TextFile []]> fs
          end !! filename = Some (default (TextFile []) (fs !! filename))) as Hfile.
  { destruct (fs !! filename) eqn:Hf; cbn; [done|apply lookup_insert_eq]. }
  assert (forall path, path <> filename ->
          match fs !! filename with
          | Some _ => fs
          | None => <[filename:=TextFile []]> fs
          end !! path = fs !! path) as Hother.
  { intros path Hne. destruct (fs !! filename); [done|].
    by apply lookup_insert_ne. }
  repeat case_bool_decide; cbn; (split; [done|]); (split; [done|]); done.
Qed.

Lemma setup_logging_opens_before_checking_witness :
  let config := {| DIR := "logs"; LEVEL := "info"; FORMAT := "%(message)s";
                   ARCHIVE_FORMAT := "tar" |} in
  let r := setup_logging config "2025-01-01" ∅ in
  r.1 = Raised (ValueError "archive_format must be either 'zip' or 'gz'") /\
  r.2 !! "logs/2025-01-01.log" = Some (TextFile []).
Proof.
  intros config r.
  pose proof (setup_logging_opens_before_checking config "2025-01-01" ∅)
    as (Hfile & _ & Hraise).
  split.
  - apply Hraise; vm_compute; discriminate.
  - exact Hfile.
Defined.

Lemma append_nonempty_ne (s t : string) : t <> "" -> s +:+ t <> s.
Proof.
  intros Ht. induction s as [|a s IH]; cbn; [done|].
  intros [= H]. by apply IH.
Qed.

(** Removing files that exist, each once, succeeds and touches no other
    path. *)
Lemma for_each_remove l : forall fs : gmap string File,
  NoDup l -> (forall x, x ∈ l -> is_Some (fs !! x)) ->
  exists fs', for_each l os_remove fs = (Returned tt, fs') /\
    (forall k, fs !! k = None -> fs' !! k = None).
Proof.
  induction l as [|x l IH]; intros fs Hnd Hin.
  - exists fs. by split.
  - apply NoDup_cons in Hnd as [Hx Hnd].
    destruct (Hin x) as [f Hf]; [left|].
    destruct (IH (delete x fs) Hnd) as (fs' & Hrun & Hnone).
    { intros y Hy. rewrite lookup_delete_ne; [apply Hin; by right|].
      intros ->. done. }
    exists fs'. split.
    + cbn. unfold bind, os_remove at 1. rewrite Hf. exact Hrun.
    + intros k Hk. apply Hnone.
      destruct (decide (x = k)) as [->|Hne];
        [apply lookup_delete_eq | by rewrite lookup_delete_ne].
Qed.

Lemma getFilesToDelete_exist h (fs : gmap string File) :
  NoDup (getFilesToDelete h fs) /\
  forall x, x ∈ getFilesToDelete h fs -> is_Some (fs !! x).
Proof.
  unfold getFilesToDelete. cbv zeta.
  set (result := filter _ (elements (dom fs))).
  assert (NoDup result) as Hnd by apply NoDup_filter, NoDup_elements.
  assert (forall x, x ∈ result -> is_Some (fs !! x)) as Hin.
  { intros x [_ Hx%elem_of_elements]%list_elem_of_filter. by apply elem_of_dom. }
  case_decide; [split; [constructor|by intros ? ?%elem_of_nil]|].
  split.
  - eapply sublist_NoDup; [|apply sublist_take].
    by rewrite merge_sort_Permutation.
  - intros x Hx%subseteq_take. apply Hin.
    by rewrite merge_sort_Permutation in Hx.
Qed.

Lemma bind_eval {S A B} (m : M S A) (k : A -> M S B) s a s' :
  m s = (Returned a, s') -> bind m k s = k a s'.
Proof. intros H. unfold bind. by rewrite H. Qed.

(** With [delay] off, the base class always hands back a freshly opened,
    empty log file. *)
Lemma base_doRollover_reopens h stamp (fs : gmap string File) :
  delay h = false ->
  exists fs1, TimedRotatingFileHandler_doRollover h stamp fs = (Returned tt, fs1) /\
              fs1 !! baseFilename h = Some (TextFile []).
Proof.
  intros Hdelay.
  unfold TimedRotatingFileHandler_doRollover, rotation_filename. cbv zeta.
  set (base := baseFilename h). set (dfn := base +:+ "." +:+ stamp).
  assert (dfn <> base) as Hne by (by apply append_nonempty_ne).
  (* the stale rotated file, if any, is removed *)
  rewrite (bind_eval (os_path_exists dfn) _ fs
             (bool_decide (is_Some (fs !! dfn))) fs eq_refl).
  assert (exists fsA,
            (if bool_decide (is_Some (fs !! dfn)) then os_remove dfn else ret tt) fs
            = (Returned tt, fsA)) as [fsA HA].
  { case_bool_decide as Hd; [|by eexists].
    destruct Hd as [f Hf]. eexists. unfold os_remove. by rewrite Hf. }
  rewrite (bind_eval _ _ _ _ _ HA).
  (* the log file, if any, is renamed *)
  rewrite (bind_eval (os_path_exists base) _ fsA
             (bool_decide (is_Some (fsA !! base))) fsA eq_refl).
  assert (exists fsB,
            (if bool_decide (is_Some (fsA !! base)) then os_rename base dfn else ret tt)
              fsA = (Returned tt, fsB) /\ fsB !! base = None) as (fsB & HB & HBbase).
  { destruct (fsA !! base) as [f|] eqn:Hf.
    - rewrite bool_decide_eq_true_2 by by eexists.
      eexists. unfold os_rename. cbv beta. rewrite Hf. split; [done|].
      rewrite lookup_insert_ne by done. apply lookup_delete_eq.
    - rewrite bool_decide_eq_false_2 by by intros [? ?].
      by exists fsA. }
  rewrite (bind_eval _ _ _ _ _ HB).
  rewrite (bind_eval get_state _ fsB fsB fsB eq_refl).
  (* old rotated files are pruned *)
  assert (exists fsC,
            (if decide (0 < backupCount h)%nat
             then for_each (getFilesToDelete h fsB) os_remove else ret tt) fsB
            = (Returned tt, fsC) /\ fsC !! base = None) as (fsC & HC & HCbase).
  { case_decide; [|by exists fsB].
    destruct (getFilesToDelete_exist h fsB) as [Hnd Hex].
    destruct (for_each_remove _ fsB Hnd Hex) as (fsC & HrunC & HnoneC).
    exists fsC. split; [done|]. by apply HnoneC. }
  rewrite (bind_eval _ _ _ _ _ HC).
  (* the log file is opened again *)
  rewrite Hdelay. cbn [negb]. unfold open_append, modify. cbv beta. rewrite HCbase.
  eexists. split; [reflexivity|]. apply lookup_insert_eq.
Qed.

Lemma archive_stage h (fs1 : gmap string File) (ext : string)
    (wrap : string -> list string -> File)
    (archive_to : string -> M (gmap string File) unit) :
  ext <> "" ->
  fs1 !! baseFilename h = Some (TextFile []) ->
  (forall log_file,
     archive_to log_file =
       (run logging_info h ("Archiving " +:+ log_file +:+ " to " +:+ (log_file +:+ ext));
        do content <- read_lines log_file;
        modify (insert (log_file +:+ ext) (wrap log_file content)))) ->
  exists fs',
    (run archive_to (baseFilename h); os_remove (baseFilename h)) fs1
      = (Returned tt, fs') /\
    fs' !! baseFilename h = None /\
    fs' !! (baseFilename h +:+ ext)
      = Some (wrap (baseFilename h) (announced h (baseFilename h +:+ ext))).
Proof.
  intros Hext Hbase Harchive. rewrite Harchive.
  set (base := baseFilename h) in *.
  assert (base +:+ ext <> base) as Hne by by apply append_nonempty_ne.
  unfold logging_info, announced, open_append, write_line, read_lines, os_remove.
  unfold_monad. fold base.
  destruct (root_emits_info h); cbn.
  - rewrite Hbase. cbn. rewrite lookup_alter_eq, Hbase. cbn.
    rewrite lookup_insert_ne by done. rewrite lookup_alter_eq, Hbase. cbn.
    eexists. split; [reflexivity|]. split; [apply lookup_delete_eq|].
    rewrite lookup_delete_ne by done. apply lookup_insert_eq.
  - rewrite Hbase. cbn. rewrite lookup_insert_ne by done. rewrite Hbase.
    eexists. split; [reflexivity|]. split; [apply lookup_delete_eq|].
    rewrite lookup_delete_ne by done. apply lookup_insert_eq.
Qed.

(** X25. Whatever the directory holds, a rollover of a handler with
    [delay] off returns, leaves no file under the handler's own name, and
    leaves under [<name>.zip] (or [<name>.gz]) an archive of the file it
    has just reopened: the archive holds the line that announces the
    archiving, or nothing, and never a record of the day that ended. The
    archive's name does not depend on the date, so every rollover
    overwrites the one before. *)
Theorem doRollover_archive_content h stamp (fs : gmap string File) :
  delay h = false ->
  (archive_format h = "zip" ->
   exists fs', doRollover h stamp fs = (Returned tt, fs') /\
     fs' !! baseFilename h = None /\
     fs' !! (baseFilename h +:+ ".zip")
       = Some (ZipArchive (basename (baseFilename h))
                 (announced h (baseFilename h +:+ ".zip")))) /\
  (archive_format h = "gz" ->
   exists fs', doRollover h stamp fs = (Returned tt, fs') /\
     fs' !! baseFilename h = None /\
     fs' !! (baseFilename h +:+ ".gz")
       = Some (GzArchive (announced h (baseFilename h +:+ ".gz")))).
Proof.
  intros Hdelay.
  destruct (base_doRollover_reopens h stamp fs Hdelay) as (fs1 & Hsuper & Hbase).
  split; intros Hfmt; unfold doRollover, rotation_filename; cbv zeta;
    rewrite (bind_eval _ _ _ _ _ Hsuper), Hfmt.
  - rewrite bool_decide_eq_true_2 by done.
    apply (archive_stage h fs1 ".zip"
             (fun log_file => ZipArchive (basename log_file)) (_archive_to_zip h));
      [done|done|].
    intros log_file. reflexivity.
  - rewrite bool_decide_eq_false_2 by done.
    rewrite bool_decide_eq_true_2 by done.
    apply (archive_stage h fs1 ".gz" (fun _ => GzArchive) (_archive_to_gz h));
      [done|done|].
    intros log_file. reflexivity.
Qed.

Lemma doRollover_archive_content_witness :
  exists fs', doRollover zip_handler "2025-01-09" disk_with_backups = (Returned tt, fs') /\
    fs' !! "logs/2025-01-01.log" = None /\
    fs' !! "logs/2025-01-01.log.zip"
      = Some (ZipArchive "2025-01-01.log"
                ["Archiving logs/2025-01-01.log to logs/2025-01-01.log.zip"]).
Proof.
  exact (proj1 (doRollover_archive_content zip_handler "2025-01-09" disk_with_backups
                  eq_refl) eq_refl).
Defined.

End LoggerMore.
